(** * shipnoiseviz: file discovery, time-range filtering and plot adapters

    A shallow embedding of [app.py] and [plotutils.py].

    - [Datetime] models the parts of Python's [datetime] module the program
      calls: [time] objects and their ordering, the [datetime] constructor
      with its range checks, and [strptime]/[strftime] for the one layout
      the program uses, ["%Y-%m-%dT%H-%M-%S-%f"].
    - [App] embeds [find_files_by_date], [filter_timestamps_by_time_range]
      and the body of the "Generate Graphs" branch of
      [create_sidebar_layout].
    - [Plotutils] embeds [create_plotly_spectrogram].
    - [Sidebar] holds the order of date-times and the sorted list of
      timestamps that [create_sidebar_layout] offers for selection.

    Python dictionaries are finite maps ([gmap]); dictionary equality in
    Python ignores insertion order, as does equality of [gmap]s. Python
    integers are [Z]. Strings are ASCII strings. *)

From Stdlib Require Import ZArith Lia Ascii String List.
From stdpp Require Import base option list gmap strings fin_maps sorting.

Local Open Scope Z_scope.

(* ===================================================================== *)
(** * The datetime library, as far as the program uses it *)
(* ===================================================================== *)

Module Datetime.

(** [datetime.time]: the program only handles naive times. *)
Record time := mk_time {
  hour : Z;
  minute : Z;
  second : Z;
  microsecond : Z
}.

(** [datetime.datetime], naive. *)
Record datetime := mk_datetime {
  year : Z;
  month : Z;
  day : Z;
  dt_hour : Z;
  dt_minute : Z;
  dt_second : Z;
  dt_microsecond : Z
}.

(** [datetime.time()] of a datetime. *)
Definition time_of (d : datetime) : time :=
  mk_time (dt_hour d) (dt_minute d) (dt_second d) (dt_microsecond d).

(** The range checks of the [time] constructor. *)
Definition valid_time (t : time) : Prop :=
  0 <= hour t <= 23 /\ 0 <= minute t <= 59 /\
  0 <= second t <= 59 /\ 0 <= microsecond t <= 999999.

(** Python compares two naive times as the tuples
    [(hour, minute, second, microsecond)]. *)
Definition time_cmp (a b : time) : comparison :=
  match hour a ?= hour b with
  | Eq =>
      match minute a ?= minute b with
      | Eq =>
          match second a ?= second b with
          | Eq => microsecond a ?= microsecond b
          | c => c
          end
      | c => c
      end
  | c => c
  end.

(** [a <= b] *)
Definition time_le (a b : time) : bool :=
  match time_cmp a b with Gt => false | _ => true end.

(** [a >= b] *)
Definition time_ge (a b : time) : bool :=
  match time_cmp a b with Lt => false | _ => true end.

(** The time of day as a number: microseconds since midnight. *)
Definition time_of_day (t : time) : Z :=
  ((hour t * 60 + minute t) * 60 + second t) * 1000000 + microsecond t.

(** ** Calendar checks of the [datetime] constructor *)

Definition is_leap (y : Z) : bool :=
  (y mod 4 =? 0) && (negb (y mod 100 =? 0) || (y mod 400 =? 0)).

Definition days_in_month (y m : Z) : Z :=
  if m =? 2 then (if is_leap y then 29 else 28)
  else if (m =? 4) || (m =? 6) || (m =? 9) || (m =? 11) then 30
  else 31.

Definition between (lo hi x : Z) : bool := (lo <=? x) && (x <=? hi).

(** [datetime(year, month, day, hour, minute, second, microsecond)]:
    [None] stands for the [ValueError] of an out-of-range field. *)
Definition datetime_new (y m d H M Sec f : Z) : option datetime :=
  if between 1 9999 y && between 1 12 m && between 1 (days_in_month y m) d
     && between 0 23 H && between 0 59 M && between 0 59 Sec
     && between 0 999999 f
  then Some (mk_datetime y m d H M Sec f)
  else None.

Definition valid_datetime (d : datetime) : Prop :=
  datetime_new (year d) (month d) (day d) (dt_hour d) (dt_minute d)
               (dt_second d) (dt_microsecond d) = Some d.

(** ** Regular-expression matching with backtracking *)

(** [strptime] turns the layout into a regular expression and matches it
    at the start of the string. A matcher maps the input to all the ways
    it can match a prefix, in the order a backtracking engine tries them;
    each comes with the value read and the rest of the input. *)
Definition matcher (A : Type) := string -> list (A * string).

Definition m_ret {A} (a : A) : matcher A := fun s => [(a, s)].

Definition m_bind {A B} (p : matcher A) (f : A -> matcher B) : matcher B :=
  fun s => flat_map (fun r => f (fst r) (snd r)) (p s).

(** [p|q]: the matches of [p] are tried before those of [q]. *)
Definition m_alt {A} (p q : matcher A) : matcher A :=
  fun s => p s ++ q s.

Notation "'let*' x ':=' p 'in' q" := (m_bind p (fun x => q))
  (at level 10, x name, p at level 100, q at level 200).

Definition digit_val (c : ascii) : option Z :=
  let n := Z.of_N (N_of_ascii c) in
  if between 48 57 n then Some (n - 48) else None.

(** One decimal digit in the class [[lo-hi]]; [\d] is [m_digit 0 9]. *)
Definition m_digit (lo hi : Z) : matcher Z := fun s =>
  match s with
  | String c r =>
      match digit_val c with
      | Some v => if between lo hi v then [(v, r)] else []
      | None => []
      end
  | EmptyString => []
  end.

(** One literal character. *)
Definition m_lit (c : ascii) : matcher unit := fun s =>
  match s with
  | String c' r => if Ascii.eqb c c' then [(tt, r)] else []
  | EmptyString => []
  end.

(** Two digits read as a decimal number. *)
Definition m_two (lo1 hi1 lo2 hi2 : Z) : matcher Z :=
  let* a := m_digit lo1 hi1 in let* b := m_digit lo2 hi2 in m_ret (10 * a + b).

(** [%Y]: [\d\d\d\d] *)
Definition re_Y : matcher Z :=
  let* a := m_digit 0 9 in let* b := m_digit 0 9 in
  let* c := m_digit 0 9 in let* d := m_digit 0 9 in
  m_ret (((a * 10 + b) * 10 + c) * 10 + d).

(** [%m]: [1[0-2]|0[1-9]|[1-9]] *)
Definition re_m : matcher Z :=
  m_alt (m_two 1 1 0 2) (m_alt (m_two 0 0 1 9) (m_digit 1 9)).

(** [%d]: [3[0-1]|[1-2]\d|0[1-9]|[1-9]| [1-9]]; the text of the last
    alternative, a space and a digit, is read by [int] as the digit. *)
Definition re_d : matcher Z :=
  m_alt (m_two 3 3 0 1)
    (m_alt (m_two 1 2 0 9)
       (m_alt (m_two 0 0 1 9)
          (m_alt (m_digit 1 9)
             (let* _ := m_lit " " in m_digit 1 9)))).

(** [%H]: [2[0-3]|[0-1]\d|\d] *)
Definition re_H : matcher Z :=
  m_alt (m_two 2 2 0 3) (m_alt (m_two 0 1 0 9) (m_digit 0 9)).

(** [%M]: [[0-5]\d|\d] *)
Definition re_M : matcher Z :=
  m_alt (m_two 0 5 0 9) (m_digit 0 9).

(** [%S]: [6[0-1]|[0-5]\d|\d] *)
Definition re_S : matcher Z :=
  m_alt (m_two 6 6 0 1) (m_alt (m_two 0 5 0 9) (m_digit 0 9)).

(** Up to [n] more digits, the longest match first. [acc] is the number
    read so far and [pad] the power of ten that right-pads it to six
    digits. *)
Fixpoint more_digits (n : nat) (acc pad : Z) (s : string)
  : list (Z * string) :=
  match n with
  | O => [(acc * pad, s)]
  | S k =>
      match s with
      | String c r =>
          match digit_val c with
          | Some v => more_digits k (10 * acc + v) (pad / 10) r
                        ++ [(acc * pad, s)]
          | None => [(acc * pad, s)]
          end
      | EmptyString => [(acc * pad, s)]
      end
  end.

(** [%f]: [[0-9]{1,6}], greedy. The digits are padded with zeros on the
    right to six places and read as microseconds. *)
Definition re_f : matcher Z := fun s =>
  match s with
  | String c r =>
      match digit_val c with
      | Some v => more_digits 5 v 100000 r
      | None => []
      end
  | EmptyString => []
  end.

(** The literal [T] of the layout: the expression is compiled with
    [IGNORECASE], so a lower-case [t] matches as well. *)
Definition m_T : matcher unit := m_alt (m_lit "T") (m_lit "t").

Definition fields : Type := Z * Z * Z * Z * Z * Z * Z.

(** The expression for ["%Y-%m-%dT%H-%M-%S-%f"]. *)
Definition layout_regex : matcher fields :=
  let* y := re_Y in let* _ := m_lit "-" in
  let* m := re_m in let* _ := m_lit "-" in
  let* d := re_d in let* _ := m_T in
  let* H := re_H in let* _ := m_lit "-" in
  let* M := re_M in let* _ := m_lit "-" in
  let* Sec := re_S in let* _ := m_lit "-" in
  let* f := re_f in
  m_ret (y, m, d, H, M, Sec, f).

(** [datetime.strptime(s, "%Y-%m-%dT%H-%M-%S-%f")]. [None] stands for
    [ValueError]: the text does not match the layout, text remains after
    the match, or a field is out of range for the constructor. *)
Definition strptime (s : string) : option datetime :=
  match layout_regex s with
  | [] => None
  | ((y, m, d, H, M, Sec, f), rest) :: _ =>
      match rest with
      | EmptyString => datetime_new y m d H M Sec f
      | String _ _ => None
      end
  end.

(** ** Formatting *)

Definition digit_char (v : Z) : ascii :=
  ascii_of_N (Z.to_N (48 + v mod 10)).

(** The decimal digits of [n], zero-padded to width [w]. *)
Fixpoint zfill (w : nat) (n : Z) : string :=
  match w with
  | O => EmptyString
  | S k => zfill k (n / 10) +:+ String (digit_char n) EmptyString
  end.

(** [d.strftime("%Y-%m-%dT%H-%M-%S-%f")]. [%Y] is the year padded with
    zeros to four digits, as the library documents it. *)
Definition strftime (d : datetime) : string :=
  zfill 4 (year d) +:+ "-" +:+ zfill 2 (month d) +:+ "-"
  +:+ zfill 2 (day d) +:+ "T" +:+ zfill 2 (dt_hour d) +:+ "-"
  +:+ zfill 2 (dt_minute d) +:+ "-" +:+ zfill 2 (dt_second d) +:+ "-"
  +:+ zfill 6 (dt_microsecond d).

End Datetime.

Import Datetime.

(* ===================================================================== *)
(** * app.py *)
(* ===================================================================== *)

Module App.

(** The inner mapping of the file index: file kind to path. *)
Abbreviation file_info := (gmap string string).

(** The file index: timestamp key to inner mapping. *)
Abbreviation file_index := (gmap string (gmap string string)).

(** ** filter_timestamps_by_time_range *)

(** The test of the loop body on the parsed time:
<<
    if start_time <= end_time:
        if start_time <= file_time <= end_time: ...
    else:
        if file_time >= start_time or file_time <= end_time: ...
>> *)
Definition in_time_range (start_time end_time file_time : time) : bool :=
  if time_le start_time end_time
  then time_le start_time file_time && time_le file_time end_time
  else time_ge file_time start_time || time_le file_time end_time.

(** One iteration of the loop over [available_files.items()]. The
    [ValueError] of [strptime] is caught and the loop continues. *)
Definition filter_step (start_time end_time : time)
    (filtered_files : file_index) (item : string * file_info) : file_index :=
  let '(timestamp, files) := item in
  match strptime timestamp with
  | Some timestamp_dt =>
      let file_time := time_of timestamp_dt in
      if in_time_range start_time end_time file_time
      then <[timestamp := files]> filtered_files
      else filtered_files
  | None => filtered_files
  end.

Definition filter_timestamps_by_time_range
    (available_files : file_index) (start_time end_time : time)
  : file_index :=
  foldl (filter_step start_time end_time) ∅ (map_to_list available_files).

(** Whether the loop body keeps a key: the key parses and its time passes
    the test. *)
Definition keeps (s e : time) (timestamp : string) : bool :=
  match strptime timestamp with
  | Some dt => in_time_range s e (time_of dt)
  | None => false
  end.

(** The first and the last time of a day. *)
Definition day_start : time := mk_time 0 0 0 0.
Definition day_end : time := mk_time 23 59 59 999999.

(** The defaults of the two time inputs: [datetime.time(0, 0)] and
    [datetime.time(23, 59)]. *)
Definition default_time_start : time := mk_time 0 0 0 0.
Definition default_time_end : time := mk_time 23 59 0 0.

(** ** The inclusion rule as the specification words it *)

(** The rule on times of day: a same-day range when [start <= end], an
    overnight range otherwise, both ends included. *)
Definition range_rule (start_time end_time t : time) : Prop :=
  if decide (time_of_day start_time <= time_of_day end_time)
  then time_of_day start_time <= time_of_day t <= time_of_day end_time
  else time_of_day t >= time_of_day start_time
       \/ time_of_day t <= time_of_day end_time.

(** A valid timestamp key, as the specification defines it: the text
    produced by formatting a date and time with the layout. *)
Definition timestamp_key (k : string) : Prop :=
  exists dt, valid_datetime dt /\ strftime dt = k.

(** ** The file system, as far as [find_files_by_date] reads it *)

(** A directory lists its entries in the order the platform enumerates
    them. *)
Inductive node :=
| File
| Dir (entries : list (string * node)).

Fixpoint lookup_entry (name : string) (entries : list (string * node))
  : option node :=
  match entries with
  | [] => None
  | (n, x) :: rest => if String.eqb n name then Some x else lookup_entry name rest
  end.

(** [p / name] below a node already resolved: present when the node is a
    directory with that entry. *)
Definition child (name : string) (n : node) : option node :=
  match n with
  | File => None
  | Dir entries => lookup_entry name entries
  end.

(** Resolve a relative path given as its components. [Path.exists()] is
    [is_Some] of the result. *)
Fixpoint resolve (components : list string) (n : node) : option node :=
  match components with
  | [] => Some n
  | c :: rest =>
      match child c n with
      | Some n' => resolve rest n'
      | None => None
      end
  end.

(** [Path.is_dir()] *)
Definition is_dir (n : node) : bool :=
  match n with Dir _ => true | File => false end.

(** [str.split("/")] *)
Fixpoint split_slash_aux (cur : string) (s : string) : list string :=
  match s with
  | EmptyString => [String.rev cur]
  | String c r =>
      if Ascii.eqb c "/" then String.rev cur :: split_slash_aux EmptyString r
      else split_slash_aux (String c cur) r
  end.

Definition split_slash (s : string) : list string :=
  split_slash_aux EmptyString s.

(** [c in s], for a character. *)
Fixpoint has_char (c : ascii) (s : string) : bool :=
  match s with
  | EmptyString => false
  | String c' r => Ascii.eqb c c' || has_char c r
  end.

(** [s.endswith(suf)] *)
Definition ends_with (suf s : string) : bool :=
  String.prefix (String.rev suf) (String.rev s).

(** A name matched by the pattern [f"{pre}*{suf}"]: it starts with [pre]
    and what follows ends with [suf]. This is the meaning [Path.glob]
    gives the pattern when [pre] and [suf] hold no pattern character and
    no separator, as for a date followed by [T] and the extensions
    [".wav"] and [".pickle"], the only ones the program searches for. It
    is not the meaning of a pattern built from another extension: [glob]
    reads [".wa[v]"] as a character class, descends a directory for
    ["/x.wav"] and raises for ["*"]. The theorems on the index are
    therefore stated for [default_extensions]. *)
Definition glob_match (pre suf name : string) : bool :=
  String.prefix pre name
  && ends_with suf (String.substring (String.length pre)
                      (String.length name - String.length pre) name).

(** [list(dir.glob(f"{pre}*{suf}"))]: the matching entries of a
    directory, files and directories alike, compared with case as on a
    POSIX file system; nothing when the path is not a directory. *)
Definition glob (dir : node) (pre suf : string) : list string :=
  match dir with
  | File => []
  | Dir entries => filter (fun name => glob_match pre suf name = true)
                     (map fst entries)
  end.

(** [s.rfind(".")], counted from the left; [None] for [-1]. *)
Fixpoint rfind_dot (s : string) : option nat :=
  match s with
  | EmptyString => None
  | String c r =>
      match rfind_dot r with
      | Some i => Some (S i)
      | None => if Ascii.eqb c "." then Some O else None
      end
  end.

(** [Path.stem]: the name without its last suffix. A dot in the first or
    in the last position starts no suffix. *)
Definition stem (name : string) : string :=
  match rfind_dot name with
  | Some i =>
      if (0 <? i)%nat && (i <? String.length name - 1)%nat
      then String.substring 0 i name
      else name
  | None => name
  end.

(** [datetime.date] and its [strftime("%Y-%m-%d")]. *)
Record date := mk_date { d_year : Z; d_month : Z; d_day : Z }.

Definition date_strftime (d : date) : string :=
  zfill 4 (d_year d) +:+ "-" +:+ zfill 2 (d_month d) +:+ "-"
  +:+ zfill 2 (d_day d).

(** ** find_files_by_date *)

Inductive os_error :=
| NotADirectoryError (path : string).

(** The default of the [file_extensions] argument. *)
Definition default_extensions : list string := [".wav"; ".pickle"].

Definition pkl_dirs : list string := ["pkl/bb"; "pkl/psd"].

(**
<<
    if timestamp not in matching_files:
        matching_files[timestamp] = {}
    matching_files[timestamp][kind] = str(file_path)
>> *)
Definition add_file (matching_files : file_index)
    (timestamp kind path : string) : file_index :=
  <[timestamp := <[kind := path]> (default ∅ (matching_files !! timestamp))]>
    matching_files.

(** The loop over the files one pattern matched in one directory.
    [dir_path] is the text of the directory's path. *)
Definition add_matches (dir_path kind : string) (files : list string)
    (matching_files : file_index) : file_index :=
  foldl (fun m name => add_file m (stem name) kind (dir_path +:+ "/" +:+ name))
        matching_files files.

(** The search of the [wav] subdirectory of one session directory. *)
Definition scan_wav (subdir_path : string) (subdir : node)
    (date_str : string) (file_extensions : list string)
    (matching_files : file_index) : file_index :=
  match child "wav" subdir with
  | Some wav_dir =>
      foldl (fun m ext =>
               add_matches (subdir_path +:+ "/wav") ext
                 (glob wav_dir (date_str +:+ "T") ext) m)
            matching_files file_extensions
  | None => matching_files
  end.

(** The search of the [pkl/bb] and [pkl/psd] subdirectories. *)
Definition scan_pkl (subdir_path : string) (subdir : node)
    (date_str : string) (matching_files : file_index) : file_index :=
  foldl (fun m pkl_subdir =>
           let pkl_type := default "" (split_slash pkl_subdir !! 1%nat) in
           match resolve (split_slash pkl_subdir) subdir with
           | Some pkl_path =>
               add_matches (subdir_path +:+ "/" +:+ pkl_subdir) pkl_type
                 (glob pkl_path (date_str +:+ "T") ".pickle") m
           | None => m
           end)
        matching_files pkl_dirs.

(** The body of the loop over [data_path.iterdir()]. *)
Definition scan_subdir (data_path date_str : string)
    (file_extensions : list string)
    (matching_files : file_index) (entry : string * node) : file_index :=
  let '(name, subdir) := entry in
  if is_dir subdir then
    let subdir_path := data_path +:+ "/" +:+ name in
    scan_pkl subdir_path subdir date_str
      (scan_wav subdir_path subdir date_str file_extensions matching_files)
  else matching_files.

(** [find_files_by_date(location, selected_date, file_extensions)], run
    in a working directory [cwd]. [location] is one path component.
    [iterdir] on a path that is no directory raises
    [NotADirectoryError]. *)
Definition find_files_by_date (cwd : node) (location : string)
    (selected_date : date) (file_extensions : list string)
  : os_error + file_index :=
  let data_path := "output/" +:+ location in
  let date_str := date_strftime selected_date in
  match resolve ["output"; location] cwd with
  | None => inr ∅
  | Some File => inl (NotADirectoryError data_path)
  | Some (Dir entries) =>
      inr (foldl (scan_subdir data_path date_str file_extensions) ∅ entries)
  end.

(** ** What the specification says of the index *)

(** The fixed set of file kinds: raw audio, power spectral density and
    broadband level, by the tags the program gives them. *)
Definition file_kinds : list string := [".wav"; "psd"; "bb"].

(** Every inner key of every entry is one of [kinds]. *)
Definition kinds_within (kinds : list string) (idx : file_index) : Prop :=
  forall timestamp info kind,
    idx !! timestamp = Some info -> is_Some (info !! kind) -> kind ∈ kinds.

(** An entry found in the [wav] subdirectory of a session directory: its
    kind is the extension searched for. *)
Definition from_wav_dir (data_path date_str : string)
    (file_extensions : list string) (timestamp kind path : string) : Prop :=
  kind ∈ file_extensions
  /\ exists session name,
       path = ((data_path +:+ "/" +:+ session) +:+ "/wav") +:+ "/" +:+ name
       /\ glob_match (date_str +:+ "T") kind name = true
       /\ timestamp = stem name.

(** An entry found in the [pkl/bb] or [pkl/psd] subdirectory of a session
    directory: its kind is the name of that subdirectory. *)
Definition from_pkl_dir (data_path date_str : string)
    (timestamp kind path : string) : Prop :=
  kind ∈ ["bb"; "psd"]
  /\ exists session name,
       path = ((data_path +:+ "/" +:+ session) +:+ "/" +:+ "pkl/" +:+ kind)
              +:+ "/" +:+ name
       /\ glob_match (date_str +:+ "T") ".pickle" name = true
       /\ timestamp = stem name.

(** Every entry of an index has the property [Q]. *)
Definition all_entries (Q : string -> string -> string -> Prop)
    (idx : file_index) : Prop :=
  forall timestamp info kind path,
    idx !! timestamp = Some info -> info !! kind = Some path ->
    Q timestamp kind path.

(** Where an entry comes from: the [wav] subdirectory or one of the two
    [pkl] subdirectories of a session directory. *)
Definition origin (data_path date_str : string)
    (file_extensions : list string) (timestamp kind path : string) : Prop :=
  from_wav_dir data_path date_str file_extensions timestamp kind path
  \/ from_pkl_dir data_path date_str timestamp kind path.

(** Where an entry comes from, told by its kind: under one of the
    extensions searched for, from the [wav] subdirectory; under [bb] or
    [psd], from the [pkl] subdirectory of that name. *)
Definition origin_by_kind (data_path date_str : string)
    (file_extensions : list string) (timestamp kind path : string) : Prop :=
  (kind ∈ file_extensions ->
   from_wav_dir data_path date_str file_extensions timestamp kind path)
  /\ (kind ∈ ["bb"; "psd"] ->
      from_pkl_dir data_path date_str timestamp kind path).

(** The index has an entry for [timestamp] with the kind [kind]. *)
Definition indexed (idx : file_index) (timestamp kind : string) : Prop :=
  exists info, idx !! timestamp = Some info /\ is_Some (info !! kind).

(** The index holds [path] for [timestamp] under [kind]:
    [idx[timestamp][kind] == path]. *)
Definition slot_is (idx : file_index) (timestamp kind path : string)
  : Prop :=
  exists info, idx !! timestamp = Some info /\ info !! kind = Some path.

(** Every key of the index has the property [P]. *)
Definition all_keys (P : string -> Prop) (idx : file_index) : Prop :=
  forall timestamp, is_Some (idx !! timestamp) -> P timestamp.

(** The extension of the files indexed under a kind, for the default
    extensions: the kind itself for an extension, [.pickle] for [bb] and
    [psd]. *)
Definition kind_extension (kind : string) : string :=
  if String.eqb kind ".wav" then ".wav" else ".pickle".

(** The directory indexed under a kind, below a session directory. *)
Definition kind_directory (kind : string) : string :=
  if String.eqb kind "bb" then "pkl/bb"
  else if String.eqb kind "psd" then "pkl/psd"
  else "wav".


(** ** The "Generate Graphs" branch of create_sidebar_layout *)

(** What the interaction shows, call by call. The pictographs that open
    some of the program's messages are left out of the texts. *)
Inductive st_event (figure : Type) :=
| StProgressNew (percent : Z)        (* progress_bar = st.progress(0) *)
| StStatusNew                        (* status_text = st.empty() *)
| StProgress (percent : Z)           (* progress_bar.progress(n) *)
| StStatusText (text : string)       (* status_text.text(...) *)
| StError (msg : string)             (* st.error(...) *)
| StException (msg : string)         (* st.exception(e) *)
| StWarning (msg : string)           (* st.warning(...) *)
| StSubheader (text : string)        (* st.subheader(...) *)
| StWrite (text : string)            (* st.write(...) *)
| StPlotlyChart (fig : figure)       (* st.plotly_chart(fig, ...) *)
| Sleep (seconds : Z)                (* time.sleep(1) *)
| StProgressEmpty                    (* progress_bar.empty() *)
| StStatusEmpty.                     (* status_text.empty() *)

Arguments StProgressNew {figure}.
Arguments StStatusNew {figure}.
Arguments StProgress {figure}.
Arguments StStatusText {figure}.
Arguments StError {figure}.
Arguments StException {figure}.
Arguments StWarning {figure}.
Arguments StSubheader {figure}.
Arguments StWrite {figure}.
Arguments StPlotlyChart {figure}.
Arguments Sleep {figure}.
Arguments StProgressEmpty {figure}.
Arguments StStatusEmpty {figure}.

(** How a block of statements ends. *)
Inductive outcome (exn A : Type) :=
| Normal (a : A)      (* runs to its end *)
| Returned            (* a [return] statement *)
| Raised (e : exn).   (* an exception *)

Arguments Normal {exn A}.
Arguments Returned {exn A}.
Arguments Raised {exn A}.

Section Generate.

(** The collaborators of the interaction. An exception is known by its
    text, [str(e)]. *)
Variables figure dataframe exn : Type.
Variable str_exn : exn -> string.
Variable path_exists : string -> bool.
Variable create_plotly_spectrogram : string -> Z -> exn + figure.
Variable read_pickle : string -> exn + dataframe.
Variable create_plotly_psd : dataframe -> exn + figure.
Variable create_plotly_bb : dataframe -> exn + figure.

(** A block of statements: the calls it shows, and how it ends. *)
Definition ui (A : Type) : Type := list (st_event figure) * outcome exn A.

Definition ui_ret {A} (a : A) : ui A := ([], Normal a).

Definition ui_bind {A B} (c : ui A) (k : A -> ui B) : ui B :=
  match c with
  | (log, Normal a) => let '(log', o) := k a in (log ++ log', o)
  | (log, Returned) => (log, Returned)
  | (log, Raised e) => (log, Raised e)
  end.

Definition show (e : st_event figure) : ui unit := ([e], Normal tt).

Definition do_return {A} : ui A := ([], Returned).

Definition call {A} (r : exn + A) : ui A :=
  match r with
  | inl e => ([], Raised e)
  | inr a => ([], Normal a)
  end.

(** [try: body except Exception as e: handler(e)] *)
Definition try_except {A} (body : ui A) (handler : exn -> ui A) : ui A :=
  match body with
  | (log, Raised e) => let '(log', o) := handler e in (log ++ log', o)
  | other => other
  end.

(** [try: body finally: cleanup], for a cleanup that runs to its end:
    the body's way of ending is kept. *)
Definition try_finally {A} (body : ui A) (cleanup : list (st_event figure))
  : ui A :=
  let '(log, o) := body in (log ++ cleanup, o).

Notation "c1 ;; c2" := (ui_bind c1 (fun _ => c2))
  (at level 100, right associativity).
Notation "'let!' x ':=' c1 'in' c2" := (ui_bind c1 (fun x => c2))
  (at level 10, x name, c1 at level 100, c2 at level 200).

Definition psd_part (file_info : file_info) : ui unit :=
  match file_info !! "psd" with
  | Some psd_path =>
      show (StStatusText "Loading PSD data...") ;;
      show (StProgress 60) ;;
      try_except
        (let! psd_df := call (read_pickle psd_path) in
         let! fig_psd := call (create_plotly_psd psd_df) in
         show (StSubheader "Processed Spectrogram (PSD)") ;;
         show (StWrite "This spectrogram shows processed power spectral density data with advanced filtering and denoising applied, providing a cleaner view of the acoustic signature.") ;;
         show (StPlotlyChart fig_psd))
        (fun e => show (StWarning ("Could not load PSD data: " +:+ str_exn e)))
  | None => show (StWarning "No processed PSD data available for this timestamp")
  end.

Definition bb_part (file_info : file_info) : ui unit :=
  match file_info !! "bb" with
  | Some bb_path =>
      show (StStatusText "Loading broadband data...") ;;
      show (StProgress 80) ;;
      try_except
        (let! bb_df := call (read_pickle bb_path) in
         let! fig_bb := call (create_plotly_bb bb_df) in
         show (StSubheader "Broadband Noise Levels") ;;
         show (StWrite "This time series shows the overall acoustic energy levels across all frequencies, useful for identifying periods of increased ship noise or other acoustic events.") ;;
         show (StPlotlyChart fig_bb))
        (fun e => show (StWarning ("Could not load broadband RMS data: " +:+ str_exn e)))
  | None => show (StWarning "No broadband RMS data available for this timestamp")
  end.

(** The body of the outer [try]. *)
Definition generate_body (file_info : file_info) : ui unit :=
  match file_info !! ".wav" with
  | None =>
      show (StError "No WAV file found for the selected timestamp") ;;
      do_return
  | Some wav_file_path =>
      show (StStatusText "Loading audio data...") ;;
      show (StProgress 33) ;;
      if negb (path_exists wav_file_path) then
        show (StError ("WAV file not found: " +:+ wav_file_path)) ;;
        do_return
      else
        show (StStatusText "Creating spectrogram...") ;;
        show (StProgress 66) ;;
        let! fig_spectrogram := call (create_plotly_spectrogram wav_file_path 256) in
        show (StStatusText "Rendering plot...") ;;
        show (StProgress 90) ;;
        show (StSubheader "Audio Spectrogram (from WAV file)") ;;
        show (StWrite "This spectrogram is generated directly from the raw audio file, showing frequency content over time with basic processing.") ;;
        show (StPlotlyChart fig_spectrogram) ;;
        psd_part file_info ;;
        bb_part file_info ;;
        show (StProgress 100) ;;
        show (StStatusText "All graphs generated successfully!")
  end.

(** The progress indicators, the [try] statement with its handler and its
    [finally] clause, for the inner mapping of the selected timestamp. The
    [st.info] line that precedes them only echoes the selection and is left
    out. *)
Definition generate (file_info : file_info) : ui unit :=
  show (StProgressNew 0) ;;
  show StStatusNew ;;
  try_finally
    (try_except (generate_body file_info)
       (fun e =>
          show (StError ("Error processing data: " +:+ str_exn e)) ;;
          show (StException (str_exn e))))
    [Sleep 1; StProgressEmpty; StStatusEmpty].

(** The chart of an optional table: present when the entry has the
    kind, the table loads and the plot succeeds. *)
Definition loaded_chart (path : option string)
    (plot : dataframe -> exn + figure) : list figure :=
  match path with
  | Some p =>
      match read_pickle p with
      | inr df => match plot df with inr fig => [fig] | inl _ => [] end
      | inl _ => []
      end
  | None => []
  end.

(** The charts an interaction renders. *)
Definition charts (c : ui unit) : list figure :=
  omap (fun e => match e with StPlotlyChart fig => Some fig | _ => None end)
       (fst c).

End Generate.

End App.

(* ===================================================================== *)
(** * plotutils.py *)
(* ===================================================================== *)

Module Plotutils.

(** The overlap passed on to the transform:
<<
    if noverlap is None:
        noverlap = nfft // 2 if nfft <= 128 else 128
>> *)
Definition default_overlap (nfft : Z) (noverlap : option Z) : Z :=
  match noverlap with
  | None => if nfft <=? 128 then nfft / 2 else 128
  | Some n => n
  end.

(** [filename.split('/')[-1]] *)
Definition last_component (filename : string) : string :=
  default "" (last (App.split_slash filename)).

(** The errors [create_plotly_spectrogram] can end with, by the place
    that raises them. *)
Inductive spectrogram_error (exn : Type) :=
| WavReadError (filename : string) (cause : exn)
    (* ValueError(f"Error reading WAV file {filename}: {e}") *)
| SignalError (cause : exn)
    (* raised inside signal.spectrogram *)
| ChannelIndexError (channel size : nat)
    (* IndexError: data[:, channel] with channel >= size *)
| FigUnbound.
    (* UnboundLocalError: fig is returned but was never assigned *)

Arguments WavReadError {exn}.
Arguments SignalError {exn}.
Arguments ChannelIndexError {exn}.
Arguments FigUnbound {exn}.

Section Spectrogram.

(** [sample] is the type of a decoded amplitude, [farray] the type of the
    arrays of floating-point numbers the transform returns. *)
Variables sample farray exn : Type.

(** A numpy array: its shape and its elements in row-major order. *)
Record ndarray := mk_ndarray {
  shape : list nat;
  elements : list sample
}.

(** [data[:, channel]] of an array of shape [(nrows, ncols)]. *)
Definition column (nrows ncols channel : nat) (data : ndarray)
  : list sample :=
  omap (fun i => elements data !! (i * ncols + channel)%nat) (seq 0 nrows).

(** [wavfile.read]: the sample rate and the samples, or an exception. *)
Variable wavfile_read : string -> exn + (Z * ndarray).

(** [signal.spectrogram(x, fs=, nperseg=, noverlap=, scaling='density')]:
    the frequencies, the times and the power matrix, or an exception. *)
Variable spectrogram :
  list sample -> Z -> Z -> Z -> exn + (farray * farray * farray).

(** [10 * np.log10(Sxx + 1e-10)] *)
Variable to_db : farray -> farray.

Record heatmap := mk_heatmap {
  hm_x : farray;
  hm_y : farray;
  hm_z : farray;
  hm_colorscale : string;
  hm_showscale : option bool;       (* [None]: argument not given *)
  hm_colorbar_title : option string; (* [None]: no colorbar argument *)
  hm_hovertemplate : string
}.

(** A trace and, in a grid of subplots, its cell. *)
Record trace := mk_trace {
  tr_heatmap : heatmap;
  tr_cell : option (Z * Z)
}.

(** A figure: the grid of [make_subplots] (its [vertical_spacing], a
    float, is left out), the traces and the layout. *)
Record figure := mk_figure {
  fig_grid : option (Z * Z);        (* rows, columns of make_subplots *)
  fig_subplot_titles : list string;
  fig_traces : list trace;
  fig_title : string;
  fig_xaxis_titles : list (option (Z * Z) * string);
  fig_yaxis_titles : list (option (Z * Z) * string);
  fig_width : Z;
  fig_height : Z
}.

Definition hover_mono : string :=
  "Time: %{x:.2f}s<br>Frequency: %{y:.1f}Hz<br>Power: %{z:.1f}dB<extra></extra>".

(** The f-string of the two-channel branch, for channel 0 or 1. *)
Definition hover_channel (channel : nat) : string :=
  "Ch" +:+ zfill 1 (Z.of_nat channel) +:+ " - " +:+ hover_mono.

(** The branch [len(data.shape) == 1]. *)
Definition mono_figure (filename : string) (samplerate nfft noverlap : Z)
    (data : ndarray) : spectrogram_error exn + figure :=
  match spectrogram (elements data) samplerate nfft noverlap with
  | inl e => inl (SignalError e)
  | inr (frequencies, times, Sxx) =>
      let Sxx_db := to_db Sxx in
      inr {| fig_grid := None;
             fig_subplot_titles := [];
             fig_traces :=
               [mk_trace
                  (mk_heatmap times frequencies Sxx_db "Viridis" None
                     (Some "Power (dB)") hover_mono)
                  None];
             fig_title := "Spectrogram: " +:+ last_component filename;
             fig_xaxis_titles := [(None, "Time (s)")];
             fig_yaxis_titles := [(None, "Frequency (Hz)")];
             fig_width := 800;
             fig_height := 500 |}
  end.

(** One pass of [for channel in range(2)]: the trace added to the
    figure. *)
Definition channel_trace (samplerate nfft noverlap : Z)
    (nrows ncols : nat) (data : ndarray) (channel : nat)
  : spectrogram_error exn + trace :=
  if (channel <? ncols)%nat then
    match spectrogram (column nrows ncols channel data)
            samplerate nfft noverlap with
    | inl e => inl (SignalError e)
    | inr (frequencies, times, Sxx) =>
        let Sxx_db := to_db Sxx in
        inr (mk_trace
               (mk_heatmap times frequencies Sxx_db "Viridis"
                  (Some (channel =? 0)%nat)
                  (if (channel =? 0)%nat then Some "Power (dB)" else None)
                  (hover_channel channel))
               (Some (Z.of_nat channel + 1, 1)))
    end
  else inl (ChannelIndexError channel ncols).

(** The branch [len(data.shape) == 2]. *)
Definition stereo_figure (filename : string) (samplerate nfft noverlap : Z)
    (nrows ncols : nat) (data : ndarray) : spectrogram_error exn + figure :=
  match channel_trace samplerate nfft noverlap nrows ncols data 0 with
  | inl e => inl e
  | inr trace0 =>
      match channel_trace samplerate nfft noverlap nrows ncols data 1 with
      | inl e => inl e
      | inr trace1 =>
          inr {| fig_grid := Some (2, 1);
                 fig_subplot_titles := ["Channel 0"; "Channel 1"];
                 fig_traces := [trace0; trace1];
                 fig_title :=
                   "Stereo Spectrogram: " +:+ last_component filename;
                 fig_xaxis_titles := [(Some (2, 1), "Time (s)")];
                 fig_yaxis_titles := [(Some (1, 1), "Frequency (Hz)");
                                      (Some (2, 1), "Frequency (Hz)")];
                 fig_width := 800;
                 fig_height := 800 |}
      end
  end.

(** [create_plotly_spectrogram(filename, nfft, noverlap)]. The two [if]
    statements on [len(data.shape)] exclude each other; when neither
    holds, [return fig] finds no [fig]. *)
Definition create_plotly_spectrogram (filename : string) (nfft : Z)
    (noverlap : option Z) : spectrogram_error exn + figure :=
  let noverlap := default_overlap nfft noverlap in
  match wavfile_read filename with
  | inl e => inl (WavReadError filename e)
  | inr (samplerate, data) =>
      match shape data with
      | [_] => mono_figure filename samplerate nfft noverlap data
      | [nrows; ncols] =>
          stereo_figure filename samplerate nfft noverlap nrows ncols data
      | _ => inl FigUnbound
      end
  end.

End Spectrogram.

Arguments mk_ndarray {sample}.
Arguments shape {sample}.
Arguments elements {sample}.
Arguments column {sample}.
Arguments mk_heatmap {farray}.
Arguments mk_trace {farray}.
Arguments mk_figure {farray}.
Arguments fig_grid {farray}.
Arguments fig_subplot_titles {farray}.
Arguments fig_traces {farray}.
Arguments fig_title {farray}.
Arguments fig_xaxis_titles {farray}.
Arguments fig_yaxis_titles {farray}.
Arguments fig_width {farray}.
Arguments fig_height {farray}.

End Plotutils.

(* ===================================================================== *)
(** * The order of keys and the choice of a timestamp *)
(* ===================================================================== *)

Module Sidebar.

(** Python compares two naive date-times as the tuples
    [(year, month, day, hour, minute, second, microsecond)]. *)
Definition datetime_cmp (a b : datetime) : comparison :=
  match year a ?= year b with
  | Eq =>
      match month a ?= month b with
      | Eq =>
          match day a ?= day b with
          | Eq => time_cmp (time_of a) (time_of b)
          | c => c
          end
      | c => c
      end
  | c => c
  end.

(** [sorted(available_files.keys())]: the keys in ascending order of
    strings. Python compares strings character by character, a proper
    prefix coming first, as [String.leb] does; the keys of a dictionary
    are distinct, so the ascending arrangement is unique, and merge sort
    computes it. *)
Definition sorted_timestamps (available_files : App.file_index)
  : list string :=
  merge_sort String.le (map fst (map_to_list available_files)).

End Sidebar.


(* ===================================================================== *)
(** * Properties *)
(* ===================================================================== *)

Import App.

(** ** Times of day *)

Section TimeOrder.

Lemma time_cmp_time_of_day (a b : time) :
  valid_time a -> valid_time b ->
  time_cmp a b = (time_of_day a ?= time_of_day b).
Proof.
  intros (Ha1 & Ha2 & Ha3 & Ha4) (Hb1 & Hb2 & Hb3 & Hb4).
  unfold time_cmp, time_of_day.
  destruct (Z.compare_spec (hour a) (hour b));
    [destruct (Z.compare_spec (minute a) (minute b));
       [destruct (Z.compare_spec (second a) (second b));
          [destruct (Z.compare_spec (microsecond a) (microsecond b))| |]| |]| |];
    symmetry;
    first [apply Z.compare_eq_iff | apply Z.compare_lt_iff
          | apply Z.compare_gt_iff]; nia.
Qed.

Lemma time_le_time_of_day (a b : time) :
  valid_time a -> valid_time b ->
  time_le a b = true <-> time_of_day a <= time_of_day b.
Proof.
  intros Ha Hb. unfold time_le. rewrite (time_cmp_time_of_day a b Ha Hb).
  destruct (Z.compare_spec (time_of_day a) (time_of_day b));
    split; intros; try lia; try reflexivity; discriminate.
Qed.

Lemma time_ge_time_of_day (a b : time) :
  valid_time a -> valid_time b ->
  time_ge a b = true <-> time_of_day a >= time_of_day b.
Proof.
  intros Ha Hb. unfold time_ge. rewrite (time_cmp_time_of_day a b Ha Hb).
  destruct (Z.compare_spec (time_of_day a) (time_of_day b));
    split; intros; try lia; try reflexivity; discriminate.
Qed.

(** The test of the loop body decides the rule of the specification. *)
Lemma in_time_range_rule (s e t : time) :
  valid_time s -> valid_time e -> valid_time t ->
  in_time_range s e t = true <-> range_rule s e t.
Proof.
  intros Hs He Ht. unfold in_time_range, range_rule.
  pose proof (time_le_time_of_day s e Hs He) as Hse.
  pose proof (time_le_time_of_day s t Hs Ht) as Hst.
  pose proof (time_le_time_of_day t e Ht He) as Hte.
  pose proof (time_ge_time_of_day t s Ht Hs) as Hts.
  destruct (time_le s e) eqn:E; destruct (decide _) as [D|D].
  - rewrite andb_true_iff. tauto.
  - exfalso. apply D, Hse. reflexivity.
  - apply Hse in D. discriminate.
  - rewrite orb_true_iff. tauto.
Qed.

End TimeOrder.

(** ** What [strptime] returns *)

Lemma datetime_new_Some (y m d H M Sec f : Z) (dt : datetime) :
  datetime_new y m d H M Sec f = Some dt ->
  dt = mk_datetime y m d H M Sec f /\
  1 <= y <= 9999 /\ 1 <= m <= 12 /\ 1 <= d <= days_in_month y m /\
  0 <= H <= 23 /\ 0 <= M <= 59 /\ 0 <= Sec <= 59 /\ 0 <= f <= 999999.
Proof.
  unfold datetime_new, between. intros Hnew.
  destruct (_ && _) eqn:E in Hnew; [|discriminate].
  injection Hnew as <-.
  repeat (apply andb_true_iff in E; destruct E as [E ?]).
  repeat match goal with
         | H : (_ <=? _) = true |- _ => apply Z.leb_le in H
         end.
  repeat split; lia.
Qed.

Lemma strptime_Some_new (s : string) (dt : datetime) :
  strptime s = Some dt ->
  exists y m d H M Sec f, datetime_new y m d H M Sec f = Some dt.
Proof.
  unfold strptime.
  destruct (layout_regex s) as [|[[[[[[[y m] d] H] M] Sec] f] rest] tl];
    [discriminate|].
  destruct rest; [|discriminate]. eauto 10.
Qed.

(** A parsed date-time carries a time the [time] constructor accepts. *)
Lemma strptime_valid_time (s : string) (dt : datetime) :
  strptime s = Some dt -> valid_time (time_of dt).
Proof.
  intros Hp. apply strptime_Some_new in Hp
    as (y & m & d & H & M & Sec & f & Hnew).
  apply datetime_new_Some in Hnew as (-> & _ & _ & _ & HH & HM & HS & Hf).
  unfold valid_time, time_of. simpl. lia.
Qed.

(** ** The time-range filter *)

Lemma filter_step_lookup (s e : time) (acc : file_index)
    (k' : string) (v' : file_info) (k : string) :
  filter_step s e acc (k', v') !! k
  = if decide (k' = k) then (if keeps s e k then Some v' else acc !! k)
    else acc !! k.
Proof.
  unfold filter_step, keeps. case_decide as Hk.
  - subst k'. destruct (strptime k) as [dt|]; [|reflexivity].
    destruct (in_time_range s e (time_of dt)); [|reflexivity].
    apply lookup_insert_eq.
  - destruct (strptime k') as [dt|]; [|reflexivity].
    destruct (in_time_range s e (time_of dt)); [|reflexivity].
    by apply lookup_insert_ne.
Qed.

Lemma foldl_filter_step_lookup (s e : time) (l : list (string * file_info))
    (acc : file_index) (k : string) :
  NoDup l.*1 ->
  foldl (filter_step s e) acc l !! k
  = match (list_to_map l : file_index) !! k with
    | Some v => if keeps s e k then Some v else acc !! k
    | None => acc !! k
    end.
Proof.
  revert acc. induction l as [|[k' v'] l IH]; intros acc Hnd.
  - simpl. by rewrite lookup_empty.
  - simpl in Hnd. apply NoDup_cons in Hnd as [Hnotin Hnd].
    cbn [foldl]. rewrite (IH _ Hnd), filter_step_lookup.
    cbn [list_to_map foldr uncurry].
    destruct (decide (k' = k)) as [->|Hne].
    + rewrite lookup_insert_eq.
      rewrite (not_elem_of_list_to_map_1 (M := gmap string) l k Hnotin).
      reflexivity.
    + rewrite lookup_insert_ne by done. reflexivity.
Qed.

(** The filtered index, key by key. *)
Lemma filter_lookup (idx : file_index) (s e : time) (k : string) :
  filter_timestamps_by_time_range idx s e !! k
  = if keeps s e k then idx !! k else None.
Proof.
  unfold filter_timestamps_by_time_range.
  rewrite foldl_filter_step_lookup by apply NoDup_fst_map_to_list.
  rewrite list_to_map_to_list, lookup_empty.
  destruct (idx !! k), (keeps s e k); reflexivity.
Qed.

(** C1. A key is in the filtered index, with the inner mapping it had in
    the input, exactly when it is in the input, it parses, and its time of
    day [t] passes the rule: [start <= t <= end] for a same-day range
    ([start <= end]), [t >= start] or [t <= end] for an overnight range
    ([start > end]). *)
Theorem filter_includes_iff_range_rule
    (idx : file_index) (start_time end_time : time)
    (k : string) (files : file_info) :
  valid_time start_time -> valid_time end_time ->
  filter_timestamps_by_time_range idx start_time end_time !! k = Some files
  <-> idx !! k = Some files
      /\ exists dt, strptime k = Some dt
                    /\ range_rule start_time end_time (time_of dt).
Proof.
  intros Hs He. rewrite filter_lookup. unfold keeps.
  destruct (strptime k) as [dt|] eqn:Hp.
  - pose proof (in_time_range_rule start_time end_time (time_of dt) Hs He
                  (strptime_valid_time k dt Hp)) as Hrule.
    destruct (in_time_range start_time end_time (time_of dt)).
    + split.
      * intros Hk. split; [exact Hk|]. exists dt. split; [reflexivity|].
        by apply Hrule.
      * by intros [Hk _].
    + split; [discriminate|].
      intros [_ (dt' & [= <-] & Hr)]. apply Hrule in Hr. discriminate.
  - split; [discriminate|]. intros [_ (dt' & [=] & _)].
Qed.

Lemma filter_includes_iff_range_rule_witness :
  filter_timestamps_by_time_range
    {[ "2025-09-01T23-30-00-000000" := {[ ".wav" := "a.wav" ]} ]}
    (mk_time 22 0 0 0) (mk_time 6 0 0 0)
    !! "2025-09-01T23-30-00-000000" = Some {[ ".wav" := "a.wav" ]}
  <-> ({[ "2025-09-01T23-30-00-000000" := {[ ".wav" := "a.wav" ]} ]}
         : file_index) !! "2025-09-01T23-30-00-000000"
      = Some {[ ".wav" := "a.wav" ]}
      /\ exists dt, strptime "2025-09-01T23-30-00-000000" = Some dt
                    /\ range_rule (mk_time 22 0 0 0) (mk_time 6 0 0 0)
                         (time_of dt).
Proof.
  apply (filter_includes_iff_range_rule
           {[ "2025-09-01T23-30-00-000000" := {[ ".wav" := "a.wav" ]} ]}
           (mk_time 22 0 0 0) (mk_time 6 0 0 0)
           "2025-09-01T23-30-00-000000" {[ ".wav" := "a.wav" ]});
    unfold valid_time; simpl; lia.
Defined.

(** C5. An entry whose key does not parse is absent from the output, and
    the output is the one the same input without that entry gives: the
    [ValueError] is caught inside the loop and the other entries are
    treated as if the entry were not there. *)
Theorem filter_drops_unparseable
    (idx : file_index) (start_time end_time : time) (k : string) :
  strptime k = None ->
  filter_timestamps_by_time_range idx start_time end_time !! k = None
  /\ filter_timestamps_by_time_range idx start_time end_time
     = filter_timestamps_by_time_range (delete k idx) start_time end_time.
Proof.
  intros Hp.
  assert (Hk : keeps start_time end_time k = false)
    by (unfold keeps; by rewrite Hp).
  split.
  - by rewrite filter_lookup, Hk.
  - apply map_eq. intros k'. rewrite !filter_lookup.
    destruct (decide (k = k')) as [<-|Hne].
    + by rewrite Hk.
    + by rewrite lookup_delete_ne.
Qed.

Lemma filter_drops_unparseable_witness :
  filter_timestamps_by_time_range
    {[ "2025-09-01Tnotes" := {[ ".wav" := "a.wav" ]} ]}
    (mk_time 0 0 0 0) (mk_time 23 59 0 0) !! "2025-09-01Tnotes" = None
  /\ filter_timestamps_by_time_range
       {[ "2025-09-01Tnotes" := {[ ".wav" := "a.wav" ]} ]}
       (mk_time 0 0 0 0) (mk_time 23 59 0 0)
     = filter_timestamps_by_time_range
         (delete "2025-09-01Tnotes"
            {[ "2025-09-01Tnotes" := {[ ".wav" := "a.wav" ]} ]})
         (mk_time 0 0 0 0) (mk_time 23 59 0 0).
Proof.
  apply (filter_drops_unparseable
           {[ "2025-09-01Tnotes" := {[ ".wav" := "a.wav" ]} ]}
           (mk_time 0 0 0 0) (mk_time 23 59 0 0) "2025-09-01Tnotes").
  vm_compute. reflexivity.
Defined.

(** C7. Filtering twice with the same range gives what filtering once
    gives. *)
Theorem filter_idempotent (idx : file_index) (start_time end_time : time) :
  filter_timestamps_by_time_range
    (filter_timestamps_by_time_range idx start_time end_time)
    start_time end_time
  = filter_timestamps_by_time_range idx start_time end_time.
Proof.
  apply map_eq. intros k. rewrite !filter_lookup.
  destruct (keeps start_time end_time k); reflexivity.
Qed.

(** The filter never fails and returns a restriction of its input. *)
Lemma filter_subseteq (idx : file_index) (start_time end_time : time) :
  filter_timestamps_by_time_range idx start_time end_time ⊆ idx.
Proof.
  apply map_subseteq_spec. intros k v. rewrite filter_lookup.
  destruct (keeps start_time end_time k); [done|discriminate].
Qed.

(** The examples of the specification: 08:00 to 18:00. *)
Example same_day_examples :
  keeps (mk_time 8 0 0 0) (mk_time 18 0 0 0) "2025-09-01T12-00-00-000000" = true
  /\ keeps (mk_time 8 0 0 0) (mk_time 18 0 0 0) "2025-09-01T07-59-59-000000" = false
  /\ keeps (mk_time 8 0 0 0) (mk_time 18 0 0 0) "2025-09-01T18-00-00-000000" = true.
Proof. vm_compute. auto. Qed.

(** 22:00 to 06:00. *)
Example overnight_examples :
  keeps (mk_time 22 0 0 0) (mk_time 6 0 0 0) "2025-09-01T23-30-00-000000" = true
  /\ keeps (mk_time 22 0 0 0) (mk_time 6 0 0 0) "2025-09-01T05-00-00-000000" = true
  /\ keeps (mk_time 22 0 0 0) (mk_time 6 0 0 0) "2025-09-01T12-00-00-000000" = false.
Proof. vm_compute. auto. Qed.

(** ** Formatting a date-time and parsing it back *)

Section RoundTrip.

Lemma digit_val_char (v : Z) : digit_val (digit_char v) = Some (v mod 10).
Proof.
  unfold digit_char.
  assert (Hr : exists i : nat, v mod 10 = Z.of_nat i /\ (i < 10)%nat).
  { exists (Z.to_nat (v mod 10)).
    pose proof (Z.mod_pos_bound v 10 ltac:(lia)). lia. }
  destruct Hr as (i & -> & Hi).
  do 10 (destruct i as [|i]; [vm_compute; reflexivity|]). lia.
Qed.

Lemma m_digit_char (lo hi v : Z) (rest : string) :
  m_digit lo hi (String (digit_char v) rest)
  = if between lo hi (v mod 10) then [(v mod 10, rest)] else [].
Proof. unfold m_digit. by rewrite digit_val_char. Qed.

(** The first match of a sequence continues the first match of its
    head. *)
Lemma head_m_bind {A B} (p : matcher A) (f : A -> matcher B)
    (s : string) (a : A) (r : string) (x : B * string) :
  head (p s) = Some (a, r) ->
  head (f a r) = Some x ->
  head (m_bind p f s) = Some x.
Proof.
  unfold m_bind. destruct (p s) as [|[a' r'] tl]; [discriminate|].
  intros [= -> ->] Hx. cbn [flat_map fst snd].
  destruct (f a r); [discriminate|]. exact Hx.
Qed.

Ltac small_cases n bound :=
  let i := fresh "i" in
  let Hi := fresh "Hi" in
  assert (exists i : nat, n = Z.of_nat i /\ (i < bound)%nat) as (i & -> & Hi)
    by (exists (Z.to_nat n); lia);
  repeat (destruct i as [|i];
          [first [exfalso; lia | vm_compute; reflexivity]
          |try (exfalso; lia)]).

Lemma re_Y_zfill (y : Z) (rest : string) :
  0 <= y <= 9999 -> head (re_Y (zfill 4 y +:+ rest)) = Some (y, rest).
Proof.
  intros Hy.
  change (zfill 4 y +:+ rest)
    with (String (digit_char (y / 10 / 10 / 10))
            (String (digit_char (y / 10 / 10))
               (String (digit_char (y / 10))
                  (String (digit_char y) rest)))).
  unfold re_Y, m_bind, m_ret.
  rewrite !m_digit_char.
  assert (Hb : forall v, between 0 9 (v mod 10) = true).
  { intros v. unfold between.
    pose proof (Z.mod_pos_bound v 10 ltac:(lia)).
    apply andb_true_iff. split; apply Z.leb_le; lia. }
  rewrite Hb. cbn [flat_map fst snd app]. rewrite m_digit_char, Hb.
  cbn [flat_map fst snd app]. rewrite m_digit_char, Hb.
  cbn [flat_map fst snd app]. rewrite m_digit_char, Hb.
  cbn [flat_map fst snd app head]. do 2 f_equal.
  Z.div_mod_to_equations. lia.
Qed.

Lemma re_m_zfill (m : Z) (rest : string) :
  1 <= m <= 12 -> head (re_m (zfill 2 m +:+ rest)) = Some (m, rest).
Proof. intros Hm. small_cases m 13%nat. Qed.

Lemma re_d_zfill (d : Z) (rest : string) :
  1 <= d <= 31 -> head (re_d (zfill 2 d +:+ rest)) = Some (d, rest).
Proof. intros Hd. small_cases d 32%nat. Qed.

Lemma re_H_zfill (h : Z) (rest : string) :
  0 <= h <= 23 -> head (re_H (zfill 2 h +:+ rest)) = Some (h, rest).
Proof. intros Hh. small_cases h 24%nat. Qed.

Lemma re_M_zfill (m : Z) (rest : string) :
  0 <= m <= 59 -> head (re_M (zfill 2 m +:+ rest)) = Some (m, rest).
Proof. intros Hm. small_cases m 60%nat. Qed.

Lemma re_S_zfill (s : Z) (rest : string) :
  0 <= s <= 59 -> head (re_S (zfill 2 s +:+ rest)) = Some (s, rest).
Proof. intros Hs. small_cases s 60%nat. Qed.

Lemma re_f_zfill (f : Z) :
  0 <= f <= 999999 -> head (re_f (zfill 6 f)) = Some (f, EmptyString).
Proof.
  intros Hf.
  change (zfill 6 f)
    with (String (digit_char (f / 10 / 10 / 10 / 10 / 10))
            (String (digit_char (f / 10 / 10 / 10 / 10))
               (String (digit_char (f / 10 / 10 / 10))
                  (String (digit_char (f / 10 / 10))
                     (String (digit_char (f / 10))
                        (String (digit_char f) EmptyString)))))).
  unfold re_f. repeat (rewrite digit_val_char; cbn [more_digits]).
  change (100000 / 10 / 10 / 10 / 10 / 10) with 1.
  rewrite <- !app_assoc. cbn [app head].
  do 2 f_equal. Z.div_mod_to_equations. lia.
Qed.

Lemma head_m_lit (c : ascii) (rest : string) :
  head (m_lit c (String c rest)) = Some (tt, rest).
Proof. unfold m_lit. by rewrite Ascii.eqb_refl. Qed.

Lemma head_m_T (rest : string) :
  head (m_T (String "T" rest)) = Some (tt, rest).
Proof. reflexivity. Qed.

(** [strptime] reads the first match of the expression. *)
Lemma strptime_head (s : string) (y m d H M Sec f : Z) :
  head (layout_regex s) = Some ((y, m, d, H, M, Sec, f), EmptyString) ->
  strptime s = datetime_new y m d H M Sec f.
Proof.
  unfold strptime. destruct (layout_regex s) as [|x tl]; [discriminate|].
  intros [= ->]. reflexivity.
Qed.

(** Parsing undoes formatting. *)
Lemma strptime_strftime (dt : datetime) :
  valid_datetime dt -> strptime (strftime dt) = Some dt.
Proof.
  intros Hv. pose proof Hv as Hnew. unfold valid_datetime in Hnew.
  apply datetime_new_Some in Hnew
    as (_ & Hy & Hm & Hd & HH & HM & HS & Hf).
  assert (Hd' : 1 <= day dt <= 31).
  { revert Hd. unfold days_in_month.
    repeat match goal with |- context [if ?b then _ else _] => destruct b end;
      lia. }
  rewrite (strptime_head _ (year dt) (month dt) (day dt) (dt_hour dt)
             (dt_minute dt) (dt_second dt) (dt_microsecond dt));
    [exact Hv|].
  unfold strftime, layout_regex.
  eapply head_m_bind; [apply re_Y_zfill; lia|].
  eapply head_m_bind; [apply head_m_lit|].
  eapply head_m_bind; [apply re_m_zfill; lia|].
  eapply head_m_bind; [apply head_m_lit|].
  eapply head_m_bind; [apply re_d_zfill; lia|].
  eapply head_m_bind; [apply head_m_T|].
  eapply head_m_bind; [apply re_H_zfill; lia|].
  eapply head_m_bind; [apply head_m_lit|].
  eapply head_m_bind; [apply re_M_zfill; lia|].
  eapply head_m_bind; [apply head_m_lit|].
  eapply head_m_bind; [apply re_S_zfill; lia|].
  eapply head_m_bind; [apply head_m_lit|].
  eapply head_m_bind; [apply re_f_zfill; lia|].
  reflexivity.
Qed.

End RoundTrip.

(** C8. A timestamp key, the text the layout gives for a date and time,
    parses under the layout, and formatting the parsed date-time with the
    layout gives the key again. *)
Theorem timestamp_key_roundtrip (k : string) :
  timestamp_key k ->
  exists dt, strptime k = Some dt /\ strftime dt = k.
Proof.
  intros (dt & Hv & <-). exists dt. split; [|reflexivity].
  by apply strptime_strftime.
Qed.

Lemma timestamp_key_roundtrip_witness :
  exists dt, strptime "2025-09-01T12-30-05-123456" = Some dt
             /\ strftime dt = "2025-09-01T12-30-05-123456".
Proof.
  apply (timestamp_key_roundtrip "2025-09-01T12-30-05-123456").
  exists (mk_datetime 2025 9 1 12 30 5 123456).
  split; vm_compute; reflexivity.
Defined.

(** The parser also accepts texts the formatter never produces: fields
    without their leading zeros, a fraction of fewer than six digits, a
    lower-case [t]. Such a text is kept by the filter but is not what
    formatting its date-time gives. *)
Example short_fraction_reformats :
  strptime "2025-09-01T12-30-05-123"
  = Some (mk_datetime 2025 9 1 12 30 5 123000)
  /\ strftime (mk_datetime 2025 9 1 12 30 5 123000)
     = "2025-09-01T12-30-05-123000".
Proof. split; vm_compute; reflexivity. Qed.
(** The parser on some texts: the canonical form, a short fraction,
    fields without leading zeros and a lower-case [t], a day the month
    does not have, a leap second, a seventh fraction digit. *)
Example strptime_ex1 :
  strptime "2025-09-01T12-30-05-123456"
  = Some (mk_datetime 2025 9 1 12 30 5 123456).
Proof. vm_compute. reflexivity. Qed.

Example strptime_ex2 :
  strptime "2025-09-01T12-30-05-123"
  = Some (mk_datetime 2025 9 1 12 30 5 123000).
Proof. vm_compute. reflexivity. Qed.

Example strptime_ex3 : strptime "2025-9-1t1-2-3-5"
  = Some (mk_datetime 2025 9 1 1 2 3 500000).
Proof. vm_compute. reflexivity. Qed.

Example strptime_ex4 : strptime "2025-02-29T12-30-05-123456" = None.
Proof. vm_compute. reflexivity. Qed.

Example strptime_ex5 : strptime "2025-09-01T12-30-60-123456" = None.
Proof. vm_compute. reflexivity. Qed.

Example strptime_ex6 : strptime "2025-09-01T12-30-05-1234567" = None.
Proof. vm_compute. reflexivity. Qed.

Example strftime_ex1 :
  strftime (mk_datetime 2025 9 1 12 30 5 123456) = "2025-09-01T12-30-05-123456".
Proof. vm_compute. reflexivity. Qed.


(** ** The file indexer *)

Section Indexer.

Lemma foldl_invariant {A B} (P : A -> Prop) (f : A -> B -> A)
    (l : list B) (a : A) :
  P a -> (forall a x, x ∈ l -> P a -> P (f a x)) -> P (foldl f a l).
Proof.
  revert a. induction l as [|x l IH]; intros a Ha Hstep; [exact Ha|].
  cbn [foldl]. apply IH.
  - apply Hstep; [left|exact Ha].
  - intros a' x' Hx'. apply Hstep. by right.
Qed.


Lemma all_entries_empty Q : all_entries Q ∅.
Proof. intros ts info kind path Hts. by rewrite lookup_empty in Hts. Qed.

Lemma all_entries_add_file Q (idx : file_index) (ts kind path : string) :
  all_entries Q idx -> Q ts kind path ->
  all_entries Q (add_file idx ts kind path).
Proof.
  intros Hidx Hnew ts' info kind' path'. unfold add_file.
  destruct (decide (ts = ts')) as [<-|Hts].
  - rewrite lookup_insert_eq. intros [= <-].
    destruct (decide (kind = kind')) as [<-|Hk].
    + rewrite lookup_insert_eq. by intros [= <-].
    + rewrite lookup_insert_ne by done.
      destruct (idx !! ts) as [old|] eqn:Hold; cbn [default].
      * by apply Hidx.
      * by rewrite lookup_empty.
  - rewrite lookup_insert_ne by done. apply Hidx.
Qed.

Lemma elem_of_glob (dir : node) (pre suf name : string) :
  name ∈ glob dir pre suf -> glob_match pre suf name = true.
Proof.
  destruct dir as [|entries]; cbn [glob].
  - by intros ?%elem_of_nil.
  - by intros [? _]%list_elem_of_filter.
Qed.

Lemma all_entries_add_matches Q (dir_path kind : string)
    (files : list string) (idx : file_index) :
  all_entries Q idx ->
  (forall name, name ∈ files ->
     Q (stem name) kind (dir_path +:+ "/" +:+ name)) ->
  all_entries Q (add_matches dir_path kind files idx).
Proof.
  intros Hidx Hfiles. unfold add_matches.
  apply (foldl_invariant (all_entries Q)); [exact Hidx|].
  intros m name Hname Hm. apply all_entries_add_file; auto.
Qed.

Lemma add_matches_nil (dir_path kind : string) (idx : file_index) :
  add_matches dir_path kind [] idx = idx.
Proof. reflexivity. Qed.

Variables (data_path date_str : string) (file_extensions : list string).

Local Abbreviation origin := (App.origin data_path date_str file_extensions).

Lemma origin_scan_wav (session : string) (subdir : node)
    (idx : file_index) :
  all_entries origin idx ->
  all_entries origin
    (scan_wav (data_path +:+ "/" +:+ session) subdir date_str
       file_extensions idx).
Proof.
  intros Hidx. unfold scan_wav.
  destruct (child "wav" subdir) as [wav_dir|]; [|exact Hidx].
  apply (foldl_invariant (all_entries origin)); [exact Hidx|].
  intros m ext Hext Hm. apply all_entries_add_matches; [exact Hm|].
  intros name Hname%elem_of_glob. left. split; [exact Hext|].
  exists session, name. auto.
Qed.

Lemma origin_scan_pkl (session : string) (subdir : node)
    (idx : file_index) :
  all_entries origin idx ->
  all_entries origin
    (scan_pkl (data_path +:+ "/" +:+ session) subdir date_str idx).
Proof.
  intros Hidx. unfold scan_pkl, pkl_dirs. cbn [foldl].
  change (default "" (split_slash "pkl/bb" !! 1%nat)) with "bb".
  change (default "" (split_slash "pkl/psd" !! 1%nat)) with "psd".
  assert (Hbb : all_entries origin
            match resolve (split_slash "pkl/bb") subdir with
            | Some pkl_path =>
                add_matches ((data_path +:+ "/" +:+ session) +:+ "/" +:+ "pkl/bb")
                  "bb" (glob pkl_path (date_str +:+ "T") ".pickle") idx
            | None => idx
            end).
  { destruct (resolve (split_slash "pkl/bb") subdir); [|exact Hidx].
    apply all_entries_add_matches; [exact Hidx|].
    intros name Hname%elem_of_glob. right. split; [set_solver|].
    exists session, name. auto. }
  destruct (resolve (split_slash "pkl/psd") subdir); [|exact Hbb].
  apply all_entries_add_matches; [exact Hbb|].
  intros name Hname%elem_of_glob. right. split; [set_solver|].
  exists session, name. auto.
Qed.

Lemma origin_scan_subdir (idx : file_index) (entry : string * node) :
  all_entries origin idx ->
  all_entries origin
    (scan_subdir data_path date_str file_extensions idx entry).
Proof.
  intros Hidx. destruct entry as [session subdir]. unfold scan_subdir.
  destruct (is_dir subdir); [|exact Hidx].
  by apply origin_scan_pkl, origin_scan_wav.
Qed.


(** The result for a location root that is a directory. *)
Lemma origin_scan_entries (entries : list (string * node)) :
  all_entries origin
    (foldl (scan_subdir data_path date_str file_extensions) ∅ entries).
Proof.
  apply (foldl_invariant (all_entries origin)).
  - apply all_entries_empty.
  - intros idx entry _ Hidx. by apply origin_scan_subdir.
Qed.

End Indexer.

(** C4, the claim as stated fails: a [.pickle] file inside a [wav]
    subdirectory is indexed under the key [.pickle], which is none of the
    three kinds. *)
Lemma wav_dir_pickle_outside_file_kinds :
  exists idx,
    find_files_by_date
      (Dir [("output",
             Dir [("orcasound_lab",
                   Dir [("session",
                         Dir [("wav",
                               Dir [("2025-09-01T00-00-00-000000.pickle",
                                     File)])])])])])
      "orcasound_lab" (mk_date 2025 9 1) default_extensions = inr idx
    /\ idx !! "2025-09-01T00-00-00-000000"
       = Some {[ ".pickle" :=
                   "output/orcasound_lab/session/wav/2025-09-01T00-00-00-000000.pickle" ]}
    /\ ~ kinds_within file_kinds idx.
Proof.
  eexists. split; [vm_compute; reflexivity|]. split; [reflexivity|].
  intros Hk.
  specialize (Hk "2025-09-01T00-00-00-000000" _ ".pickle" eq_refl
                (ex_intro _ _ eq_refl)).
  unfold file_kinds in Hk.
  repeat (apply elem_of_cons in Hk as [Hk|Hk]; [discriminate|]).
  by apply elem_of_nil in Hk.
Qed.

(** C4, amended. For the search as the program runs it, with the default
    extensions: every inner key is [.wav], [.pickle], [bb] or [psd]. An
    entry under [.wav] or [.pickle] comes from the [wav] subdirectory of a
    session directory, where its name matched the dated pattern ending in
    that extension; an entry under [bb] or [psd] comes from the [pkl]
    subdirectory of that name, where its name matched the dated pattern
    ending in [.pickle]. *)
Theorem index_entries_by_origin (cwd : node) (location : string)
    (selected_date : date) (idx : file_index) :
  find_files_by_date cwd location selected_date default_extensions
  = inr idx ->
  kinds_within (default_extensions ++ ["bb"; "psd"]) idx
  /\ all_entries
       (origin_by_kind ("output/" +:+ location)
          (date_strftime selected_date) default_extensions)
       idx.
Proof.
  intros Hfind.
  assert (Hall : all_entries
            (origin ("output/" +:+ location) (date_strftime selected_date)
               default_extensions) idx).
  { unfold find_files_by_date in Hfind.
    destruct (resolve ["output"; location] cwd) as [[|entries]|].
    - discriminate.
    - injection Hfind as <-. apply origin_scan_entries.
    - injection Hfind as <-. apply all_entries_empty. }
  split.
  - intros ts info kind Hts [path Hpath].
    destruct (Hall ts info kind path Hts Hpath) as [[Hk _]|[Hk _]];
      apply elem_of_app; auto.
  - intros ts info kind path Hts Hpath.
    destruct (Hall ts info kind path Hts Hpath) as [Hwav|Hpkl]; split.
    + intros _. exact Hwav.
    + intros Hk. destruct Hwav as [Hext _]. exfalso.
      unfold default_extensions in Hext.
      apply elem_of_cons in Hext as [->|Hext];
        [|apply elem_of_cons in Hext as [->|Hext];
          [|by apply elem_of_nil in Hext]];
        repeat (apply elem_of_cons in Hk as [Hk|Hk]; [discriminate|]);
        by apply elem_of_nil in Hk.
    + intros Hext. destruct Hpkl as [Hk _]. exfalso.
      apply elem_of_cons in Hk as [->|Hk];
        [|apply elem_of_cons in Hk as [->|Hk];
          [|by apply elem_of_nil in Hk]];
        unfold default_extensions in Hext;
        repeat (apply elem_of_cons in Hext as [Hext|Hext]; [discriminate|]);
        by apply elem_of_nil in Hext.
    + intros _. exact Hpkl.
Qed.

Lemma index_entries_by_origin_witness :
  kinds_within (default_extensions ++ ["bb"; "psd"])
    {[ "2025-09-01T00-00-00-000000" :=
         {[ ".pickle" := "output/orcasound_lab/session/wav/2025-09-01T00-00-00-000000.pickle";
            "bb" := "output/orcasound_lab/session/pkl/bb/2025-09-01T00-00-00-000000.pickle" ]} ]}
  /\ all_entries
       (origin_by_kind ("output/" +:+ "orcasound_lab")
          (date_strftime (mk_date 2025 9 1)) default_extensions)
       {[ "2025-09-01T00-00-00-000000" :=
            {[ ".pickle" := "output/orcasound_lab/session/wav/2025-09-01T00-00-00-000000.pickle";
               "bb" := "output/orcasound_lab/session/pkl/bb/2025-09-01T00-00-00-000000.pickle" ]} ]}.
Proof.
  apply (index_entries_by_origin
           (Dir [("output",
                  Dir [("orcasound_lab",
                        Dir [("session",
                              Dir [("wav",
                                    Dir [("2025-09-01T00-00-00-000000.pickle",
                                          File)]);
                                   ("pkl",
                                    Dir [("bb",
                                          Dir [("2025-09-01T00-00-00-000000.pickle",
                                                File)])])])])])])
           "orcasound_lab" (mk_date 2025 9 1)).
  vm_compute. reflexivity.
Defined.



(** A location root that exists but is no directory passes the
    [exists()] guard, and [iterdir] raises. *)
Lemma find_files_root_not_directory (cwd : node) (location : string)
    (selected_date : date) (file_extensions : list string) :
  resolve ["output"; location] cwd = Some File ->
  find_files_by_date cwd location selected_date file_extensions
  = inl (NotADirectoryError ("output/" +:+ location)).
Proof. unfold find_files_by_date. by intros ->. Qed.

(** C6, the input the guard misses: the path of the location root exists
    but is a regular file. [data_path.exists()] holds, and [iterdir]
    raises. *)
Theorem find_files_root_is_file :
  find_files_by_date (Dir [("output", Dir [("sandbox", File)])])
    "sandbox" (mk_date 2025 9 1) default_extensions
  = inl (NotADirectoryError "output/sandbox").
Proof. reflexivity. Qed.


(** ** The "Generate Graphs" interaction *)

Section GenerateProps.

Variables figure dataframe exn : Type.
Variable str_exn : exn -> string.
Variable path_exists : string -> bool.
Variable create_plotly_spectrogram : string -> Z -> exn + figure.
Variable read_pickle : string -> exn + dataframe.
Variable create_plotly_psd : dataframe -> exn + figure.
Variable create_plotly_bb : dataframe -> exn + figure.

Local Abbreviation generate :=
  (App.generate figure dataframe exn str_exn path_exists
     create_plotly_spectrogram read_pickle create_plotly_psd
     create_plotly_bb).

(** The interaction for an entry without a [.wav] kind. *)
Lemma no_wav_run (file_info : file_info) :
  file_info !! ".wav" = None ->
  generate file_info
  = ([StProgressNew 0; StStatusNew;
      StError "No WAV file found for the selected timestamp";
      Sleep 1; StProgressEmpty; StStatusEmpty],
     Returned).
Proof.
  intros Hwav. unfold App.generate, generate_body. rewrite Hwav.
  reflexivity.
Qed.

(** C2, amended. Without a [.wav] kind the interaction shows the "No WAV
    file found" error and returns at once; the cleanup of the [finally]
    clause follows. Nothing else is shown and no chart is rendered,
    whether or not the entry has a [psd] or a [bb] kind. *)
Theorem generate_without_wav_stops (file_info : file_info) :
  file_info !! ".wav" = None ->
  generate file_info
  = ([StProgressNew 0; StStatusNew;
      StError "No WAV file found for the selected timestamp";
      Sleep 1; StProgressEmpty; StStatusEmpty],
     Returned)
  /\ charts figure exn (generate file_info) = [].
Proof.
  intros Hwav. pose proof (no_wav_run _ Hwav) as Hgen.
  split; [exact Hgen|]. rewrite Hgen. reflexivity.
Qed.

(** The inner [try] of the PSD part: a table that fails to load is
    reported as a warning and the part runs to its end, so the broadband
    part that follows it still runs. *)
Lemma psd_failure_keeps_broadband (file_info : file_info)
    (psd_path : string) (e : exn) :
  file_info !! "psd" = Some psd_path ->
  read_pickle psd_path = inl e ->
  psd_part figure dataframe exn str_exn read_pickle create_plotly_psd
    file_info
  = ([StStatusText "Loading PSD data..."; StProgress 60;
      StWarning ("Could not load PSD data: " +:+ str_exn e)],
     Normal tt).
Proof.
  intros Hpsd Hread. unfold psd_part. rewrite Hpsd.
  unfold ui_bind, show, try_except, call. rewrite Hread. reflexivity.
Qed.

End GenerateProps.

(** C2, the claim as stated fails: an entry with a [psd] kind and no
    [.wav] kind, with a PSD table that loads and plots, renders no chart
    at all. *)
Lemma generate_without_wav_renders_no_psd :
  let file_info : file_info := {[ "psd" := "session/pkl/psd/k.pickle" ]} in
  let run :=
    generate string string string (fun e => e) (fun _ => true)
      (fun path _ => inr ("wav figure of " +:+ path))
      (fun path => inr path)
      (fun df => inr ("psd figure of " +:+ df))
      (fun df => inr ("bb figure of " +:+ df))
      file_info in
  file_info !! ".wav" = None
  /\ file_info !! "psd" = Some "session/pkl/psd/k.pickle"
  /\ StError "No WAV file found for the selected timestamp" ∈ run.1
  /\ ~ (exists fig, StPlotlyChart fig ∈ run.1).
Proof.
  cbv zeta. split; [reflexivity|]. split; [reflexivity|].
  assert (Hrun :
    generate string string string (fun e => e) (fun _ => true)
      (fun path _ => inr ("wav figure of " +:+ path))
      (fun path => inr path)
      (fun df => inr ("psd figure of " +:+ df))
      (fun df => inr ("bb figure of " +:+ df))
      ({[ "psd" := "session/pkl/psd/k.pickle" ]} : file_info)
    = ([StProgressNew 0; StStatusNew;
        StError "No WAV file found for the selected timestamp";
        Sleep 1; StProgressEmpty; StStatusEmpty], Returned)).
  { apply no_wav_run. reflexivity. }
  rewrite Hrun. cbn [fst]. split.
  - do 2 right. left.
  - intros [fig Hin].
    repeat (apply elem_of_cons in Hin as [Hin|Hin]; [discriminate|]).
    by apply elem_of_nil in Hin.
Qed.

Lemma generate_without_wav_stops_witness :
  generate string string string (fun e => e) (fun _ => true)
    (fun path _ => inr path) (fun path => inr path)
    (fun df => inr df) (fun df => inr df)
    {[ "bb" := "session/pkl/bb/k.pickle" ]}
  = ([StProgressNew 0; StStatusNew;
      StError "No WAV file found for the selected timestamp";
      Sleep 1; StProgressEmpty; StStatusEmpty],
     Returned)
  /\ charts string string
       (generate string string string (fun e => e) (fun _ => true)
          (fun path _ => inr path) (fun path => inr path)
          (fun df => inr df) (fun df => inr df)
          {[ "bb" := "session/pkl/bb/k.pickle" ]}) = [].
Proof.
  apply (generate_without_wav_stops string string string (fun e => e)
           (fun _ => true) (fun path _ => inr path) (fun path => inr path)
           (fun df => inr df) (fun df => inr df)
           {[ "bb" := "session/pkl/bb/k.pickle" ]}).
  reflexivity.
Defined.

(** ** The spectrogram adapter *)

Import Plotutils.

(** C3, the claim as stated fails: for a window of 200 samples the
    default overlap is 128, not [min(200 // 2, 128) = 100]. *)
Lemma default_overlap_200_not_min :
  default_overlap 200 None = 128
  /\ default_overlap 200 None <> Z.min (200 / 2) 128.
Proof. split; [reflexivity|]. vm_compute. discriminate. Qed.

(** C3, amended. When no overlap is supplied the overlap is half the
    window for a window of at most 128 samples and 128 samples for any
    larger window. That is [min(nfft // 2, 128)] exactly when the window
    is at most 128 or at least 256 samples. A supplied overlap is used as
    it is. *)
Theorem default_overlap_rule (nfft : Z) :
  default_overlap nfft None = (if nfft <=? 128 then nfft / 2 else 128)
  /\ (default_overlap nfft None = Z.min (nfft / 2) 128
      <-> nfft <= 128 \/ 256 <= nfft)
  /\ (forall n, default_overlap nfft (Some n) = n).
Proof.
  split; [reflexivity|]. split; [|reflexivity].
  unfold default_overlap.
  destruct (Z.leb_spec nfft 128) as [Hle|Hgt].
  - split; [auto|]. intros _.
    assert (nfft / 2 <= 128) by (apply Z.div_le_upper_bound; lia). lia.
  - split.
    + intros Hmin. right.
      destruct (Z.le_gt_cases 256 nfft) as [|Hlt]; [assumption|].
      assert (nfft / 2 < 128) by (apply Z.div_lt_upper_bound; lia). lia.
    + intros [?|Hbig]; [lia|].
      assert (128 <= nfft / 2) by (apply Z.div_le_lower_bound; lia). lia.
Qed.

Section SpectrogramProps.

Variables sample farray exn : Type.
Variable wavfile_read : string -> exn + (Z * ndarray sample).
Variable spectrogram :
  list sample -> Z -> Z -> Z -> exn + (farray * farray * farray).
Variable to_db : farray -> farray.

Local Abbreviation create_plotly_spectrogram :=
  (Plotutils.create_plotly_spectrogram sample farray exn wavfile_read
     spectrogram to_db).
Local Abbreviation channel_trace :=
  (Plotutils.channel_trace sample farray exn spectrogram to_db).

(** The panel of a channel is computed from the column of that channel
    alone. *)
Lemma channel_trace_column_only (samplerate nfft noverlap : Z)
    (nrows ncols channel : nat) (data data' : ndarray sample) :
  column nrows ncols channel data
  = column nrows ncols channel data' ->
  channel_trace samplerate nfft noverlap nrows ncols data channel
  = channel_trace samplerate nfft noverlap nrows ncols data' channel.
Proof. intros Hcol. unfold Plotutils.channel_trace. by rewrite Hcol. Qed.

(** C9. For samples of shape [(nrows, ncols)] with at least two columns,
    when the transform succeeds on columns 0 and 1, the figure is a grid
    of two rows and one column; its two traces are the heatmaps of the
    transforms of column 0 and of column 1, each with the times on x, the
    frequencies on y and the decibel values on z, in rows 1 and 2; the
    first shows the color scale and carries the colorbar, the second does
    neither; both rows carry the same y-axis title. *)
Theorem stereo_figure_two_panels (filename : string) (nfft : Z)
    (noverlap : option Z) (samplerate : Z) (data : ndarray sample)
    (nrows ncols : nat) (f0 t0 S0 f1 t1 S1 : farray) :
  wavfile_read filename = inr (samplerate, data) ->
  shape data = [nrows; ncols] ->
  (2 <= ncols)%nat ->
  spectrogram (column nrows ncols 0 data) samplerate nfft
    (default_overlap nfft noverlap) = inr (f0, t0, S0) ->
  spectrogram (column nrows ncols 1 data) samplerate nfft
    (default_overlap nfft noverlap) = inr (f1, t1, S1) ->
  exists fig,
    create_plotly_spectrogram filename nfft noverlap = inr fig
    /\ fig_grid fig = Some (2, 1)
    /\ fig_traces fig
       = [mk_trace
            (mk_heatmap t0 f0 (to_db S0) "Viridis" (Some true)
               (Some "Power (dB)") (hover_channel 0))
            (Some (1, 1));
          mk_trace
            (mk_heatmap t1 f1 (to_db S1) "Viridis" (Some false)
               None (hover_channel 1))
            (Some (2, 1))]
    /\ fig_yaxis_titles fig
       = [(Some (1, 1), "Frequency (Hz)"); (Some (2, 1), "Frequency (Hz)")]
    /\ fig_xaxis_titles fig = [(Some (2, 1), "Time (s)")].
Proof.
  intros Hread Hshape Hcols Hs0 Hs1.
  unfold Plotutils.create_plotly_spectrogram. rewrite Hread, Hshape.
  unfold stereo_figure, Plotutils.channel_trace.
  assert (H0 : (0 <? ncols)%nat = true) by (apply Nat.ltb_lt; lia).
  assert (H1 : (1 <? ncols)%nat = true) by (apply Nat.ltb_lt; lia).
  rewrite H0, H1, Hs0, Hs1.
  eexists. split; [reflexivity|]. cbn. auto.
Qed.

(** C10. A figure is returned only for samples of one dimension or of two
    dimensions with at least two columns. With any other number of
    dimensions [return fig] finds no [fig]; with two dimensions and no
    column, or one column, the function ends with the index error of
    [data[:, channel]] or, for one column, with an error of the transform
    on column 0. The error that names the file is raised exactly when the
    file fails to decode. *)
Theorem figure_only_for_mono_or_stereo (filename : string) (nfft : Z)
    (noverlap : option Z) :
  (forall fig,
     create_plotly_spectrogram filename nfft noverlap = inr fig ->
     exists samplerate data,
       wavfile_read filename = inr (samplerate, data)
       /\ ((exists n, shape data = [n])
           \/ (exists n k, shape data = [n; k] /\ (2 <= k)%nat)))
  /\ (forall samplerate data,
        wavfile_read filename = inr (samplerate, data) ->
        length (shape data) <> 1%nat ->
        length (shape data) <> 2%nat ->
        create_plotly_spectrogram filename nfft noverlap = inl FigUnbound)
  /\ (forall samplerate data n,
        wavfile_read filename = inr (samplerate, data) ->
        shape data = [n; 0%nat] ->
        create_plotly_spectrogram filename nfft noverlap
        = inl (ChannelIndexError 0 0))
  /\ (forall samplerate data n,
        wavfile_read filename = inr (samplerate, data) ->
        shape data = [n; 1%nat] ->
        create_plotly_spectrogram filename nfft noverlap
        = inl (ChannelIndexError 1 1)
        \/ exists e,
             spectrogram (column n 1 0 data) samplerate nfft
               (default_overlap nfft noverlap) = inl e
             /\ create_plotly_spectrogram filename nfft noverlap
                = inl (SignalError e))
  /\ (forall name e,
        create_plotly_spectrogram filename nfft noverlap
        = inl (WavReadError name e)
        <-> name = filename /\ wavfile_read filename = inl e).
Proof.
  unfold Plotutils.create_plotly_spectrogram.
  split; [|split; [|split; [|split; [|intros name e; split]]]].
  - intros fig Hfig.
    destruct (wavfile_read filename) as [e|[samplerate data]];
      [discriminate|].
    exists samplerate, data. split; [reflexivity|].
    destruct (shape data) as [|n [|k [|x rest]]]; try discriminate.
    + left. by exists n.
    + right. exists n, k. split; [reflexivity|].
      unfold stereo_figure, Plotutils.channel_trace in Hfig.
      destruct (1 <? k)%nat eqn:Hk.
      * apply Nat.ltb_lt in Hk. lia.
      * destruct (0 <? k)%nat; [|discriminate].
        destruct (spectrogram _ _ _ _) as [?|[[? ?] ?]]; discriminate.
  - intros samplerate data -> H1 H2.
    destruct (shape data) as [|n [|k [|x rest]]];
      cbn [length] in *; congruence.
  - intros samplerate data n -> ->. reflexivity.
  - intros samplerate data n -> ->.
    unfold stereo_figure, Plotutils.channel_trace.
    change (0 <? 1)%nat with true. change (1 <? 1)%nat with false.
    cbv iota.
    destruct (spectrogram _ _ _ _) as [e|[[f t] S]] eqn:Hs.
    + right. by exists e.
    + by left.
  - intros Herr.
    destruct (wavfile_read filename) as [e'|[samplerate data]].
    + by injection Herr as <- <-.
    + exfalso.
      destruct (shape data) as [|n [|k [|x rest]]];
        try discriminate.
      * unfold mono_figure in Herr.
        destruct (spectrogram _ _ _ _) as [?|[[? ?] ?]]; discriminate.
      * unfold stereo_figure, Plotutils.channel_trace in Herr.
        destruct (0 <? k)%nat; [|discriminate].
        destruct (spectrogram _ _ _ _) as [?|[[? ?] ?]]; [discriminate|].
        destruct (1 <? k)%nat; [|discriminate].
        destruct (spectrogram _ _ _ _) as [?|[[? ?] ?]]; discriminate.
  - intros [-> ->]. reflexivity.
Qed.

End SpectrogramProps.

(** A decoded file of two frames and two channels, with a transform that
    returns its input three times. *)
Lemma stereo_figure_two_panels_witness :
  exists fig,
    Plotutils.create_plotly_spectrogram Z (list Z) string
      (fun _ => inr (44100, mk_ndarray [2; 2]%nat [1; 2; 3; 4]))
      (fun xs _ _ _ => inr (xs, xs, xs)) (fun S => S)
      "output/sandbox/s/wav/k.wav" 256 None = inr fig
    /\ fig_grid fig = Some (2, 1)
    /\ fig_traces fig
       = [mk_trace
            (mk_heatmap [1; 3] [1; 3] [1; 3] "Viridis" (Some true)
               (Some "Power (dB)") (hover_channel 0))
            (Some (1, 1));
          mk_trace
            (mk_heatmap [2; 4] [2; 4] [2; 4] "Viridis" (Some false)
               None (hover_channel 1))
            (Some (2, 1))]
    /\ fig_yaxis_titles fig
       = [(Some (1, 1), "Frequency (Hz)"); (Some (2, 1), "Frequency (Hz)")]
    /\ fig_xaxis_titles fig = [(Some (2, 1), "Time (s)")].
Proof.
  apply (stereo_figure_two_panels Z (list Z) string
           (fun _ => inr (44100, mk_ndarray [2; 2]%nat [1; 2; 3; 4]))
           (fun xs _ _ _ => inr (xs, xs, xs)) (fun S => S)
           "output/sandbox/s/wav/k.wav" 256 None 44100
           (mk_ndarray [2; 2]%nat [1; 2; 3; 4]) 2%nat 2%nat
           [1; 3] [1; 3] [1; 3] [2; 4] [2; 4] [2; 4]);
    first [reflexivity | lia].
Defined.

(** A decoded array of three dimensions: no figure is bound. *)
Lemma figure_only_for_mono_or_stereo_witness :
  Plotutils.create_plotly_spectrogram Z (list Z) string
    (fun _ => inr (44100, mk_ndarray [2; 1; 2]%nat [1; 2; 3; 4]))
    (fun xs _ _ _ => inr (xs, xs, xs)) (fun S => S)
    "output/sandbox/s/wav/k.wav" 256 None = inl FigUnbound.
Proof.
  apply (proj1 (proj2
           (figure_only_for_mono_or_stereo Z (list Z) string
              (fun _ => inr (44100, mk_ndarray [2; 1; 2]%nat [1; 2; 3; 4]))
              (fun xs _ _ _ => inr (xs, xs, xs)) (fun S => S)
              "output/sandbox/s/wav/k.wav" 256 None))
           44100 (mk_ndarray [2; 1; 2]%nat [1; 2; 3; 4]));
    [reflexivity | cbn; lia | cbn; lia].
Defined.

(** A single-column array: channel 0 is transformed, channel 1 is out of
    range. *)
Example single_column_index_error :
  Plotutils.create_plotly_spectrogram Z (list Z) string
    (fun _ => inr (44100, mk_ndarray [3; 1]%nat [1; 2; 3]))
    (fun xs _ _ _ => inr (xs, xs, xs)) (fun S => S)
    "k.wav" 256 None = inl (ChannelIndexError 1 1).
Proof. reflexivity. Qed.

(** A file that does not decode: the error names the file. *)
Example unreadable_file_error :
  Plotutils.create_plotly_spectrogram Z (list Z) string
    (fun _ => inl "not a RIFF file")
    (fun xs _ _ _ => inr (xs, xs, xs)) (fun S => S)
    "k.wav" 256 None = inl (WavReadError "k.wav" "not a RIFF file").
Proof. reflexivity. Qed.

(* ===================================================================== *)
(** * Further properties of the code *)
(* ===================================================================== *)

(** ** The time-range filter *)

(** X1. Filtering by one range and then by another gives the same index
    in either order. *)
Theorem filter_commute (idx : file_index) (s1 e1 s2 e2 : time) :
  filter_timestamps_by_time_range
    (filter_timestamps_by_time_range idx s1 e1) s2 e2
  = filter_timestamps_by_time_range
      (filter_timestamps_by_time_range idx s2 e2) s1 e1.
Proof.
  apply map_eq. intros k. rewrite !filter_lookup.
  destruct (keeps s1 e1 k), (keeps s2 e2 k); reflexivity.
Qed.


Lemma valid_day_start : valid_time day_start.
Proof. unfold valid_time; simpl; lia. Qed.

Lemma valid_day_end : valid_time day_end.
Proof. unfold valid_time; simpl; lia. Qed.

Lemma time_of_day_bounds (t : time) :
  valid_time t -> 0 <= time_of_day t <= 86399999999.
Proof. unfold valid_time, time_of_day. intros (? & ? & ? & ?). nia. Qed.

Lemma range_rule_same_day (s e t : time) :
  time_of_day s <= time_of_day e ->
  range_rule s e t <-> time_of_day s <= time_of_day t <= time_of_day e.
Proof. intros Hle. unfold range_rule. by destruct (decide _). Qed.

Lemma range_rule_overnight (s e t : time) :
  time_of_day e < time_of_day s ->
  range_rule s e t
  <-> time_of_day t >= time_of_day s \/ time_of_day t <= time_of_day e.
Proof. intros Hlt. unfold range_rule. destruct (decide _); [lia|done]. Qed.

Lemma in_time_range_overnight_split (s e t : time) :
  valid_time s -> valid_time e -> valid_time t ->
  time_of_day e < time_of_day s ->
  in_time_range s e t
  = in_time_range s day_end t || in_time_range day_start e t.
Proof.
  intros Hs He Ht Hlt.
  pose proof (time_of_day_bounds _ Hs). pose proof (time_of_day_bounds _ He).
  pose proof (time_of_day_bounds _ Ht).
  apply eq_true_iff_eq.
  rewrite orb_true_iff, (in_time_range_rule s e t Hs He Ht),
    (in_time_range_rule s day_end t Hs valid_day_end Ht),
    (in_time_range_rule day_start e t valid_day_start He Ht).
  rewrite (range_rule_overnight s e t Hlt).
  rewrite (range_rule_same_day s day_end t)
    by (change (time_of_day day_end) with 86399999999; lia).
  rewrite (range_rule_same_day day_start e t)
    by (change (time_of_day day_start) with 0; lia).
  change (time_of_day day_end) with 86399999999.
  change (time_of_day day_start) with 0. lia.
Qed.

(** X2. An overnight range is the union of its evening part and its
    morning part: for [start > end], filtering by [(start, end)] gives the
    union of filtering by [(start, 23:59:59.999999)] and by
    [(00:00, end)]. *)
Theorem filter_overnight_split (idx : file_index) (start_time end_time : time) :
  valid_time start_time -> valid_time end_time ->
  time_of_day end_time < time_of_day start_time ->
  filter_timestamps_by_time_range idx start_time end_time
  = filter_timestamps_by_time_range idx start_time day_end
    ∪ filter_timestamps_by_time_range idx day_start end_time.
Proof.
  intros Hs He Hlt. apply map_eq. intros k.
  rewrite lookup_union, !filter_lookup.
  assert (Hor : keeps start_time end_time k
                = keeps start_time day_end k || keeps day_start end_time k).
  { unfold keeps. destruct (strptime k) as [dt|] eqn:Hp; [|reflexivity].
    apply in_time_range_overnight_split; auto.
    by apply (strptime_valid_time k). }
  rewrite Hor.
  destruct (keeps start_time day_end k), (keeps day_start end_time k),
    (idx !! k); reflexivity.
Qed.

Lemma filter_overnight_split_witness :
  filter_timestamps_by_time_range
    {[ "2025-09-01T05-00-00-000000" := {[ ".wav" := "a.wav" ]} ]}
    (mk_time 22 0 0 0) (mk_time 6 0 0 0)
  = filter_timestamps_by_time_range
      {[ "2025-09-01T05-00-00-000000" := {[ ".wav" := "a.wav" ]} ]}
      (mk_time 22 0 0 0) day_end
    ∪ filter_timestamps_by_time_range
        {[ "2025-09-01T05-00-00-000000" := {[ ".wav" := "a.wav" ]} ]}
        day_start (mk_time 6 0 0 0).
Proof.
  apply (filter_overnight_split
           {[ "2025-09-01T05-00-00-000000" := {[ ".wav" := "a.wav" ]} ]}
           (mk_time 22 0 0 0) (mk_time 6 0 0 0));
    unfold valid_time, time_of_day; simpl; lia.
Defined.

(** X3. Filtering the union of two indexes gives the union of the
    filtered indexes. *)
Theorem filter_union (idx1 idx2 : file_index) (start_time end_time : time) :
  filter_timestamps_by_time_range (idx1 ∪ idx2) start_time end_time
  = filter_timestamps_by_time_range idx1 start_time end_time
    ∪ filter_timestamps_by_time_range idx2 start_time end_time.
Proof.
  apply map_eq. intros k. rewrite !lookup_union, !filter_lookup, lookup_union.
  destruct (keeps start_time end_time k); [reflexivity|].
  reflexivity.
Qed.



(** X5. With the defaults of the two time inputs, 00:00 and 23:59, a key
    of the index that parses is dropped exactly when its time is later
    than 23:59:00.000000: the recordings of the last minute of the day
    are not offered. *)
Theorem default_range_drops_last_minute (idx : file_index) (k : string)
    (dt : datetime) (files : file_info) :
  idx !! k = Some files ->
  strptime k = Some dt ->
  filter_timestamps_by_time_range idx default_time_start default_time_end
    !! k
  = if decide (time_of_day (time_of dt) <= 86340000000)
    then Some files else None.
Proof.
  intros Hk Hp. rewrite filter_lookup, Hk. unfold keeps. rewrite Hp.
  assert (Hs : valid_time default_time_start)
    by (unfold valid_time; simpl; lia).
  assert (He : valid_time default_time_end)
    by (unfold valid_time; simpl; lia).
  pose proof (strptime_valid_time k dt Hp) as Ht.
  pose proof (time_of_day_bounds _ Ht).
  pose proof (in_time_range_rule _ _ _ Hs He Ht) as Hrule.
  rewrite (range_rule_same_day default_time_start default_time_end)
    in Hrule by (vm_compute; discriminate).
  change (time_of_day default_time_start) with 0 in Hrule.
  change (time_of_day default_time_end) with 86340000000 in Hrule.
  destruct (in_time_range default_time_start default_time_end (time_of dt)),
    (decide _); try reflexivity.
  - destruct Hrule as [Hrule _]. specialize (Hrule eq_refl). lia.
  - destruct Hrule as [_ Hrule]. discriminate Hrule. lia.
Qed.

Lemma default_range_drops_last_minute_witness :
  filter_timestamps_by_time_range
    {[ "2025-09-01T23-59-30-000000" := {[ ".wav" := "a.wav" ]} ]}
    default_time_start default_time_end !! "2025-09-01T23-59-30-000000"
  = None.
Proof.
  apply (default_range_drops_last_minute
           {[ "2025-09-01T23-59-30-000000" := {[ ".wav" := "a.wav" ]} ]}
           "2025-09-01T23-59-30-000000"
           (mk_datetime 2025 9 1 23 59 30 0) {[ ".wav" := "a.wav" ]});
    vm_compute; reflexivity.
Defined.

(** ** Parsing and formatting *)

(** X7. Two different valid date-times never format to the same key. *)
Theorem strftime_injective (d1 d2 : datetime) :
  valid_datetime d1 -> valid_datetime d2 ->
  strftime d1 = strftime d2 -> d1 = d2.
Proof.
  intros H1 H2 Heq.
  pose proof (strptime_strftime d1 H1) as P1.
  pose proof (strptime_strftime d2 H2) as P2.
  rewrite Heq in P1. congruence.
Qed.

Lemma strftime_injective_witness :
  mk_datetime 2025 9 1 12 30 5 123456 = mk_datetime 2025 9 1 12 30 5 123456.
Proof.
  apply (strftime_injective (mk_datetime 2025 9 1 12 30 5 123456)
           (mk_datetime 2025 9 1 12 30 5 123456));
    vm_compute; reflexivity.
Defined.

(** ** The overlap of the spectrogram *)

(** X8. For a window of at least one sample the default overlap is
    non-negative and smaller than the window, so consecutive windows
    advance by at least one sample. *)
Theorem default_overlap_below_window (nfft : Z) :
  1 <= nfft ->
  0 <= default_overlap nfft None < nfft.
Proof.
  intros Hn. unfold default_overlap.
  destruct (Z.leb_spec nfft 128).
  - split; [apply Z.div_pos; lia|].
    apply Z.div_lt_upper_bound; lia.
  - lia.
Qed.

Lemma default_overlap_below_window_witness :
  0 <= default_overlap 256 None < 256.
Proof. apply (default_overlap_below_window 256). lia. Defined.

Section SpectrogramMore.

Variables sample farray exn : Type.
Variable wavfile_read : string -> exn + (Z * ndarray sample).
Variable spectrogram :
  list sample -> Z -> Z -> Z -> exn + (farray * farray * farray).
Variable to_db : farray -> farray.

(** X9. Channels beyond the second are ignored: two decoded files of
    the same sample rate and the same two-dimensional shape that agree on
    columns 0 and 1 give the same result, whatever their other columns
    hold. *)
Theorem stereo_ignores_further_channels
    (wavfile_read' : string -> exn + (Z * ndarray sample))
    (filename : string) (nfft : Z) (noverlap : option Z)
    (samplerate : Z) (nrows ncols : nat) (data data' : ndarray sample) :
  wavfile_read filename = inr (samplerate, data) ->
  wavfile_read' filename = inr (samplerate, data') ->
  shape data = [nrows; ncols] ->
  shape data' = [nrows; ncols] ->
  column nrows ncols 0 data = column nrows ncols 0 data' ->
  column nrows ncols 1 data = column nrows ncols 1 data' ->
  create_plotly_spectrogram sample farray exn wavfile_read spectrogram
    to_db filename nfft noverlap
  = create_plotly_spectrogram sample farray exn wavfile_read' spectrogram
      to_db filename nfft noverlap.
Proof.
  intros Hr Hr' Hs Hs' H0 H1. unfold create_plotly_spectrogram.
  rewrite Hr, Hr', Hs, Hs'.
  unfold stereo_figure, Plotutils.channel_trace. by rewrite H0, H1.
Qed.

End SpectrogramMore.

Lemma stereo_ignores_further_channels_witness :
  create_plotly_spectrogram Z (list Z) string
    (fun _ => inr (44100, mk_ndarray [2; 3]%nat [1; 2; 7; 3; 4; 8]))
    (fun xs _ _ _ => inr (xs, xs, xs)) (fun S => S) "k.wav" 256 None
  = create_plotly_spectrogram Z (list Z) string
      (fun _ => inr (44100, mk_ndarray [2; 3]%nat [1; 2; 0; 3; 4; 0]))
      (fun xs _ _ _ => inr (xs, xs, xs)) (fun S => S) "k.wav" 256 None.
Proof.
  apply (stereo_ignores_further_channels Z (list Z) string
           (fun _ => inr (44100, mk_ndarray [2; 3]%nat [1; 2; 7; 3; 4; 8]))
           (fun xs _ _ _ => inr (xs, xs, xs)) (fun S => S)
           (fun _ => inr (44100, mk_ndarray [2; 3]%nat [1; 2; 0; 3; 4; 0]))
           "k.wav" 256 None 44100 2%nat 3%nat
           (mk_ndarray [2; 3]%nat [1; 2; 7; 3; 4; 8])
           (mk_ndarray [2; 3]%nat [1; 2; 0; 3; 4; 0]));
    reflexivity.
Defined.

(** ** The "Generate Graphs" interaction, further *)

Section GenerateMore.

Variables figure dataframe exn : Type.
Variable str_exn : exn -> string.
Variable path_exists : string -> bool.
Variable create_plotly_spectrogram : string -> Z -> exn + figure.
Variable read_pickle : string -> exn + dataframe.
Variable create_plotly_psd : dataframe -> exn + figure.
Variable create_plotly_bb : dataframe -> exn + figure.

Local Abbreviation generate :=
  (App.generate figure dataframe exn str_exn path_exists
     create_plotly_spectrogram read_pickle create_plotly_psd
     create_plotly_bb).
Local Abbreviation generate_body :=
  (App.generate_body figure dataframe exn path_exists
     create_plotly_spectrogram read_pickle create_plotly_psd
     create_plotly_bb).
Local Abbreviation psd_part :=
  (App.psd_part figure dataframe exn str_exn read_pickle create_plotly_psd).
Local Abbreviation bb_part :=
  (App.bb_part figure dataframe exn str_exn read_pickle create_plotly_bb).
Local Abbreviation loaded_chart :=
  (App.loaded_chart figure dataframe exn read_pickle).
Local Abbreviation charts := (App.charts figure exn).

(** X10. No exception leaves the interaction: it ends by running to its
    end or by a [return]. What it shows starts with the two progress
    indicators and ends with the cleanup of the [finally] clause. *)
Theorem generate_never_raises (file_info : file_info) :
  exists shown o,
    generate file_info
    = ([StProgressNew 0; StStatusNew] ++ shown
       ++ [Sleep 1; StProgressEmpty; StStatusEmpty], o)
    /\ forall e, o <> Raised e.
Proof.
  unfold App.generate.
  destruct (App.generate_body _ _ _ _ _ _ _ _ _ file_info)
    as [log [[]| |e]] eqn:Hbody.
  - exists log, (Normal tt). split; [reflexivity|discriminate].
  - exists log, Returned. split; [reflexivity|discriminate].
  - eexists (log ++ [StError _; StException _]), (Normal tt).
    split; [|discriminate].
    cbn. rewrite <- !app_assoc. reflexivity.
Qed.

(** The optional parts run to their end, whatever happens in them. *)
Lemma psd_part_normal (file_info : file_info) :
  exists log, psd_part file_info = (log, Normal tt)
              /\ charts (log, Normal tt)
                 = loaded_chart (file_info !! "psd") create_plotly_psd.
Proof.
  unfold App.psd_part, App.loaded_chart.
  destruct (file_info !! "psd") as [p|]; [|eexists; split; reflexivity].
  destruct (read_pickle p) as [e|df]; [eexists; split; reflexivity|].
  destruct (create_plotly_psd df) as [e|fig] eqn:Hplot;
    cbn; rewrite Hplot; eexists; split; reflexivity.
Qed.

Lemma bb_part_normal (file_info : file_info) :
  exists log, bb_part file_info = (log, Normal tt)
              /\ charts (log, Normal tt)
                 = loaded_chart (file_info !! "bb") create_plotly_bb.
Proof.
  unfold App.bb_part, App.loaded_chart.
  destruct (file_info !! "bb") as [p|]; [|eexists; split; reflexivity].
  destruct (read_pickle p) as [e|df]; [eexists; split; reflexivity|].
  destruct (create_plotly_bb df) as [e|fig] eqn:Hplot;
    cbn; rewrite Hplot; eexists; split; reflexivity.
Qed.

(** X11. A [.wav] entry whose file is not on disk ends the interaction
    with the "WAV file not found" error: no chart is rendered, and the
    PSD and broadband parts do not run. *)
Theorem generate_wav_file_missing (file_info : file_info)
    (wav_file_path : string) :
  file_info !! ".wav" = Some wav_file_path ->
  path_exists wav_file_path = false ->
  generate file_info
  = ([StProgressNew 0; StStatusNew;
      StStatusText "Loading audio data..."; StProgress 33;
      StError ("WAV file not found: " +:+ wav_file_path);
      Sleep 1; StProgressEmpty; StStatusEmpty],
     Returned).
Proof.
  intros Hwav Hex. unfold App.generate, App.generate_body.
  rewrite Hwav, Hex. reflexivity.
Qed.

(** X12. When the spectrogram of the raw audio fails, the error is shown
    as "Error processing data" and the interaction ends there: the PSD
    and broadband parts are not attempted and no chart is rendered. *)
Theorem generate_spectrogram_failure (file_info : file_info)
    (wav_file_path : string) (e : exn) :
  file_info !! ".wav" = Some wav_file_path ->
  path_exists wav_file_path = true ->
  create_plotly_spectrogram wav_file_path 256 = inl e ->
  generate file_info
  = ([StProgressNew 0; StStatusNew;
      StStatusText "Loading audio data..."; StProgress 33;
      StStatusText "Creating spectrogram..."; StProgress 66;
      StError ("Error processing data: " +:+ str_exn e);
      StException (str_exn e);
      Sleep 1; StProgressEmpty; StStatusEmpty],
     Normal tt).
Proof.
  intros Hwav Hex Hfig. unfold App.generate, App.generate_body.
  rewrite Hwav, Hex. cbn. rewrite Hfig. reflexivity.
Qed.

(** X13. When the raw-audio file exists and its spectrogram succeeds, the
    interaction runs to its end and reports success, whatever happens to
    the optional tables. The charts rendered are, in this order, the
    spectrogram, the PSD chart if the entry has a [psd] kind whose table
    loads and plots, and the broadband chart likewise. *)
Theorem generate_success_charts (file_info : file_info)
    (wav_file_path : string) (fig : figure) :
  file_info !! ".wav" = Some wav_file_path ->
  path_exists wav_file_path = true ->
  create_plotly_spectrogram wav_file_path 256 = inr fig ->
  snd (generate file_info) = Normal tt
  /\ charts (generate file_info)
     = [fig] ++ loaded_chart (file_info !! "psd") create_plotly_psd
       ++ loaded_chart (file_info !! "bb") create_plotly_bb
  /\ exists before,
       fst (generate file_info)
       = before ++ [StProgress 100;
                    StStatusText "All graphs generated successfully!";
                    Sleep 1; StProgressEmpty; StStatusEmpty].
Proof.
  intros Hwav Hex Hfig.
  destruct (psd_part_normal file_info) as (lp & Hp & Hcp).
  destruct (bb_part_normal file_info) as (lb & Hb & Hcb).
  assert (Hgen : generate file_info
    = ([StProgressNew 0; StStatusNew;
        StStatusText "Loading audio data..."; StProgress 33;
        StStatusText "Creating spectrogram..."; StProgress 66;
        StStatusText "Rendering plot..."; StProgress 90;
        StSubheader "Audio Spectrogram (from WAV file)";
        StWrite "This spectrogram is generated directly from the raw audio file, showing frequency content over time with basic processing.";
        StPlotlyChart fig]
       ++ lp ++ lb
       ++ [StProgress 100;
           StStatusText "All graphs generated successfully!";
           Sleep 1; StProgressEmpty; StStatusEmpty],
       Normal tt)).
  { unfold App.generate, App.generate_body.
    rewrite Hwav, Hex. cbn. rewrite Hfig. cbn. rewrite Hp. cbn.
    rewrite Hb. cbn. rewrite <- !app_assoc. reflexivity. }
  rewrite Hgen. split; [reflexivity|]. split.
  - rewrite <- Hcp, <- Hcb. unfold App.charts. cbn [fst].
    rewrite !omap_app. cbn. by rewrite app_nil_r.
  - eexists. cbn [fst]. rewrite !app_assoc. reflexivity.
Qed.

End GenerateMore.

Lemma generate_wav_file_missing_witness :
  generate string string string (fun e => e) (fun _ => false)
    (fun path _ => inr path) (fun path => inr path)
    (fun df => inr df) (fun df => inr df)
    {[ ".wav" := "session/wav/k.wav" ]}
  = ([StProgressNew 0; StStatusNew;
      StStatusText "Loading audio data..."; StProgress 33;
      StError ("WAV file not found: " +:+ "session/wav/k.wav");
      Sleep 1; StProgressEmpty; StStatusEmpty],
     Returned).
Proof.
  apply (generate_wav_file_missing string string string (fun e => e)
           (fun _ => false) (fun path _ => inr path) (fun path => inr path)
           (fun df => inr df) (fun df => inr df)
           {[ ".wav" := "session/wav/k.wav" ]} "session/wav/k.wav");
    reflexivity.
Defined.

Lemma generate_spectrogram_failure_witness :
  generate string string string (fun e => e) (fun _ => true)
    (fun path _ => inl "fig") (fun path => inr path)
    (fun df => inr df) (fun df => inr df)
    {[ ".wav" := "session/wav/k.wav" ]}
  = ([StProgressNew 0; StStatusNew;
      StStatusText "Loading audio data..."; StProgress 33;
      StStatusText "Creating spectrogram..."; StProgress 66;
      StError ("Error processing data: " +:+ "fig");
      StException "fig";
      Sleep 1; StProgressEmpty; StStatusEmpty],
     Normal tt).
Proof.
  apply (generate_spectrogram_failure string string string (fun e => e)
           (fun _ => true) (fun path _ => inl "fig") (fun path => inr path)
           (fun df => inr df) (fun df => inr df)
           {[ ".wav" := "session/wav/k.wav" ]} "session/wav/k.wav" "fig");
    reflexivity.
Defined.

(** A raw-audio file with a PSD table that fails to load and a broadband
    table that loads: two charts and the success message. *)
Lemma generate_success_charts_witness :
  let run :=
    generate string string string (fun e => e) (fun _ => true)
      (fun path _ => inr ("wav " +:+ path))
      (fun path => if String.eqb path "psd.pickle"
                   then inl "corrupt" else inr path)
      (fun df => inr ("psd " +:+ df)) (fun df => inr ("bb " +:+ df))
      (<[ ".wav" := "k.wav" ]> (<[ "psd" := "psd.pickle" ]>
         {[ "bb" := "bb.pickle" ]})) in
  snd run = Normal tt /\ charts string string run = ["wav k.wav"; "bb bb.pickle"].
Proof.
  cbv zeta.
  destruct (generate_success_charts string string string (fun e => e)
              (fun _ => true) (fun path _ => inr ("wav " +:+ path))
              (fun path => if String.eqb path "psd.pickle"
                           then inl "corrupt" else inr path)
              (fun df => inr ("psd " +:+ df)) (fun df => inr ("bb " +:+ df))
              (<[ ".wav" := "k.wav" ]> (<[ "psd" := "psd.pickle" ]>
                 {[ "bb" := "bb.pickle" ]}))
              "k.wav" "wav k.wav")
    as (Hend & Hcharts & _); [vm_compute; reflexivity| reflexivity..|].
  split; [exact Hend|]. rewrite Hcharts. vm_compute. reflexivity.
Defined.

(** ** Facts on strings *)

Section StringFacts.

Lemma app_cons (c : ascii) (a b : string) :
  String c a +:+ b = String c (a +:+ b).
Proof. reflexivity. Qed.

Lemma app_empty_l (b : string) : "" +:+ b = b.
Proof. reflexivity. Qed.

Ltac sapp := rewrite ?app_cons, ?app_empty_l.

Lemma app_empty_r (s : string) : s +:+ "" = s.
Proof. induction s as [|c s IH]; [reflexivity|]. sapp. by rewrite IH. Qed.

Lemma app_assoc_s (a b c : string) : (a +:+ b) +:+ c = a +:+ (b +:+ c).
Proof. induction a as [|x a IH]; [reflexivity|]. sapp. by rewrite IH. Qed.

Lemma length_app_s (a b : string) :
  String.length (a +:+ b) = (String.length a + String.length b)%nat.
Proof.
  induction a as [|x a IH]; [reflexivity|]. sapp. cbn. by rewrite IH.
Qed.

Lemma prefix_app (p r : string) : String.prefix p (p +:+ r) = true.
Proof.
  induction p as [|c p IH]; sapp; cbn.
  - by destruct r.
  - destruct (ascii_dec c c); [exact IH|done].
Qed.

Lemma prefix_inv (p s : string) :
  String.prefix p s = true -> exists r, s = p +:+ r.
Proof.
  revert s. induction p as [|c p IH]; intros s Hp.
  - by exists s.
  - destruct s as [|c' s]; [discriminate|]. cbn in Hp.
    destruct (ascii_dec c c') as [<-|]; [|discriminate].
    destruct (IH s Hp) as [r ->]. by exists r.
Qed.

Lemma substring_0_app (a b : string) :
  String.substring 0 (String.length a) (a +:+ b) = a.
Proof.
  induction a as [|c a IH]; sapp; cbn.
  - by destruct b.
  - by rewrite IH.
Qed.

Lemma substring_0_all (b : string) :
  String.substring 0 (String.length b) b = b.
Proof. induction b as [|c b IH]; cbn; [reflexivity|by rewrite IH]. Qed.

Lemma substring_skip_app (a b : string) :
  String.substring (String.length a) (String.length b) (a +:+ b) = b.
Proof.
  induction a as [|c a IH]; sapp; cbn; [apply substring_0_all|exact IH].
Qed.

Lemma rev_app_eq (s1 s2 : string) :
  String.rev_app s1 s2 = String.rev s1 +:+ s2.
Proof.
  unfold String.rev. revert s2.
  induction s1 as [|c s1 IH]; intros s2; [reflexivity|].
  cbn. rewrite (IH (String c s2)), (IH (String c "")), app_assoc_s.
  reflexivity.
Qed.

Lemma rev_cons (c : ascii) (s : string) :
  String.rev (String c s) = String.rev s +:+ String c "".
Proof. unfold String.rev at 1. cbn. apply rev_app_eq. Qed.

Lemma rev_app_distr (a b : string) :
  String.rev (a +:+ b) = String.rev b +:+ String.rev a.
Proof.
  induction a as [|c a IH]; sapp.
  - by rewrite app_empty_r.
  - by rewrite !rev_cons, IH, app_assoc_s.
Qed.

Lemma rev_involutive (s : string) : String.rev (String.rev s) = s.
Proof.
  induction s as [|c s IH]; [reflexivity|].
  by rewrite rev_cons, rev_app_distr, IH.
Qed.

Lemma ends_with_app (m suf : string) : ends_with suf (m +:+ suf) = true.
Proof. unfold ends_with. rewrite rev_app_distr. apply prefix_app. Qed.

Lemma ends_with_inv (suf s : string) :
  ends_with suf s = true -> exists m, s = m +:+ suf.
Proof.
  unfold ends_with. intros [r Hr]%prefix_inv. exists (String.rev r).
  rewrite <- (rev_involutive s), Hr, rev_app_distr, rev_involutive.
  reflexivity.
Qed.

(** The pattern [pre*suf] matches the names that start with [pre] and go
    on to end with [suf]. *)
Lemma glob_match_spec (pre suf name : string) :
  glob_match pre suf name = true
  <-> exists mid, name = pre +:+ mid +:+ suf.
Proof.
  unfold glob_match. rewrite andb_true_iff. split.
  - intros [[r ->]%prefix_inv Hend]. rewrite length_app_s in Hend.
    replace (String.length pre + String.length r - String.length pre)%nat
      with (String.length r) in Hend by lia.
    rewrite substring_skip_app in Hend.
    apply ends_with_inv in Hend as [m ->]. by exists m.
  - intros [mid ->]. split; [apply prefix_app|].
    rewrite length_app_s.
    replace (String.length pre + String.length (mid +:+ suf)
             - String.length pre)%nat
      with (String.length (mid +:+ suf)) by lia.
    rewrite substring_skip_app. apply ends_with_app.
Qed.

Lemma rfind_dot_None (s : string) :
  rfind_dot s = None <-> has_char "." s = false.
Proof.
  induction s as [|c s IH]; [done|]. cbn [rfind_dot has_char].
  destruct (rfind_dot s) as [i|].
  - split; [discriminate|]. intros [_ H]%orb_false_iff.
    apply IH in H. discriminate.
  - destruct IH as [IH _].
    rewrite (IH eq_refl), orb_false_r, (Ascii.eqb_sym "." c).
    destruct (Ascii.eqb c "."); split; intros; congruence.
Qed.

Lemma rfind_dot_app_Some (a b : string) (i : nat) :
  rfind_dot b = Some i ->
  rfind_dot (a +:+ b) = Some (String.length a + i)%nat.
Proof.
  intros Hb. induction a as [|c a IH]; [exact Hb|].
  sapp. cbn [rfind_dot String.length Nat.add]. by rewrite IH.
Qed.

Lemma rfind_dot_app_None (a b : string) :
  rfind_dot b = None -> rfind_dot (a +:+ b) = rfind_dot a.
Proof.
  intros Hb. induction a as [|c a IH]; [exact Hb|].
  sapp. cbn [rfind_dot String.length Nat.add]. by rewrite IH.
Qed.

Lemma has_char_app (c : ascii) (a b : string) :
  has_char c (a +:+ b) = has_char c a || has_char c b.
Proof.
  induction a as [|x a IH]; [reflexivity|]. sapp. cbn [has_char].
  by rewrite IH, orb_assoc.
Qed.

(** The stem of [base.body], for a non-empty base and a non-empty body
    without a dot, is the base. *)
Lemma stem_app_suffix (base body : string) :
  base <> "" -> body <> "" -> has_char "." body = false ->
  stem (base +:+ String "." body) = base.
Proof.
  intros Hbase Hbody Hdot. unfold stem.
  assert (Hr : rfind_dot (String "." body) = Some 0%nat).
  { cbn [rfind_dot]. apply rfind_dot_None in Hdot. by rewrite Hdot. }
  rewrite (rfind_dot_app_Some base _ _ Hr), Nat.add_0_r.
  rewrite length_app_s. cbn [String.length].
  destruct base as [|c base]; [done|]. destruct body as [|x body]; [done|].
  cbn [String.length].
  assert (H1 : (0 <? S (String.length base))%nat = true)
    by (apply Nat.ltb_lt; lia).
  assert (H2 : (S (String.length base)
                <? S (String.length base) + S (S (String.length body)) - 1)%nat
               = true) by (apply Nat.ltb_lt; lia).
  rewrite H1, H2. cbn [andb].
  apply (substring_0_app (String c base)).
Qed.

(** The stem of a name keeps any prefix that holds no dot. *)
Lemma stem_keeps_prefix (pre rest : string) :
  has_char "." pre = false ->
  String.prefix pre (stem (pre +:+ rest)) = true.
Proof.
  intros Hpre. unfold stem.
  destruct (rfind_dot (pre +:+ rest)) as [i|] eqn:Hi; [|apply prefix_app].
  destruct (_ && _); [|apply prefix_app].
  destruct (rfind_dot rest) as [j|] eqn:Hj.
  - rewrite (rfind_dot_app_Some pre rest j Hj) in Hi. injection Hi as <-.
    assert (Hsub : forall (a b : string) (n : nat),
               String.prefix a
                 (String.substring 0 (String.length a + n) (a +:+ b)) = true).
    { intros a b n. induction a as [|c a IH]; sapp; cbn.
      - by destruct (String.substring 0 n b).
      - destruct (ascii_dec c c); [exact IH|done]. }
    apply Hsub.
  - rewrite (rfind_dot_app_None pre rest Hj) in Hi.
    apply rfind_dot_None in Hpre. congruence.
Qed.

End StringFacts.

(** ** The file indexer, further *)

Section IndexerMore.

Lemma digit_char_not_dot (v : Z) : Ascii.eqb "." (digit_char v) = false.
Proof.
  unfold digit_char.
  assert (Hr : exists i : nat, v mod 10 = Z.of_nat i /\ (i < 10)%nat).
  { exists (Z.to_nat (v mod 10)).
    pose proof (Z.mod_pos_bound v 10 ltac:(lia)). lia. }
  destruct Hr as (i & -> & Hi).
  do 10 (destruct i as [|i]; [vm_compute; reflexivity|]). lia.
Qed.

Lemma zfill_no_dot (w : nat) (n : Z) : has_char "." (zfill w n) = false.
Proof.
  revert n. induction w as [|w IH]; intros n; [reflexivity|].
  cbn [zfill]. rewrite has_char_app, IH. cbn [has_char orb].
  by rewrite digit_char_not_dot.
Qed.

(** The dated prefix of the patterns holds no dot and is not empty. *)
Lemma date_prefix_no_dot (d : date) :
  has_char "." (date_strftime d +:+ "T") = false.
Proof.
  unfold date_strftime. rewrite !has_char_app, !zfill_no_dot. reflexivity.
Qed.

Lemma date_prefix_not_empty (d : date) (mid : string) :
  (date_strftime d +:+ "T") +:+ mid <> "".
Proof.
  intros Heq. apply (f_equal String.length) in Heq.
  rewrite !length_app_s in Heq.
  change (String.length (date_strftime d)) with 10%nat in Heq.
  cbn in Heq. lia.
Qed.

(** A name the dated pattern for [.wav] or [.pickle] matches is its stem
    followed by the extension, and the stem starts with the prefix. *)
Lemma matched_name_stem (d : date) (body name : string) :
  body <> "" -> has_char "." body = false ->
  glob_match (date_strftime d +:+ "T") (String "." body) name = true ->
  name = stem name +:+ String "." body.
Proof.
  intros Hbody Hdot [mid ->]%glob_match_spec.
  rewrite <- app_assoc_s.
  rewrite stem_app_suffix; auto using date_prefix_not_empty.
Qed.

Lemma matched_stem_prefix (d : date) (suf name : string) :
  glob_match (date_strftime d +:+ "T") suf name = true ->
  String.prefix (date_strftime d +:+ "T") (stem name) = true.
Proof.
  intros [mid ->]%glob_match_spec.
  apply stem_keeps_prefix, date_prefix_no_dot.
Qed.

(** ** Invariants of the scan *)

Variables (data_path date_str : string) (file_extensions : list string).

Local Abbreviation origin := (App.origin data_path date_str file_extensions).

Variable I : file_index -> Prop.
Hypothesis I_add : forall idx ts kind path,
  I idx -> origin ts kind path -> I (add_file idx ts kind path).

Lemma inv_scan_wav (session : string) (subdir : node) (idx : file_index) :
  I idx ->
  I (scan_wav (data_path +:+ "/" +:+ session) subdir date_str
       file_extensions idx).
Proof.
  intros Hidx. unfold scan_wav.
  destruct (child "wav" subdir) as [wav_dir|]; [|exact Hidx].
  apply (foldl_invariant I); [exact Hidx|].
  intros m ext Hext Hm. unfold add_matches.
  apply (foldl_invariant I); [exact Hm|].
  intros m' name Hname%elem_of_glob Hm'. apply I_add; [exact Hm'|].
  left. split; [exact Hext|]. exists session, name. auto.
Qed.

Lemma inv_scan_pkl (session : string) (subdir : node) (idx : file_index) :
  I idx ->
  I (scan_pkl (data_path +:+ "/" +:+ session) subdir date_str idx).
Proof.
  intros Hidx. unfold scan_pkl.
  apply (foldl_invariant I); [exact Hidx|].
  intros m pkl_subdir Hin Hm.
  destruct (resolve (split_slash pkl_subdir) subdir) as [pkl_path|];
    [|exact Hm].
  unfold add_matches. apply (foldl_invariant I); [exact Hm|].
  intros m' name Hname%elem_of_glob Hm'. apply I_add; [exact Hm'|].
  right. unfold pkl_dirs in Hin.
  apply elem_of_cons in Hin as [->|Hin];
    [|apply elem_of_cons in Hin as [->|Hin]; [|by apply elem_of_nil in Hin]].
  - split; [left|]. exists session, name. auto.
  - split; [right; left|]. exists session, name. auto.
Qed.

Lemma inv_scan_entries (entries : list (string * node)) :
  I ∅ ->
  I (foldl (scan_subdir data_path date_str file_extensions) ∅ entries).
Proof.
  intros Hempty. apply (foldl_invariant I); [exact Hempty|].
  intros idx [session subdir] _ Hidx. unfold scan_subdir.
  destruct (is_dir subdir); [|exact Hidx].
  by apply inv_scan_pkl, inv_scan_wav.
Qed.

End IndexerMore.

Lemma all_keys_add_file (P : string -> Prop) (idx : file_index)
    (ts kind path : string) :
  all_keys P idx -> P ts -> all_keys P (add_file idx ts kind path).
Proof.
  intros Hidx Hts ts' Hsome. unfold add_file in Hsome.
  destruct (decide (ts = ts')) as [<-|Hne]; [exact Hts|].
  rewrite lookup_insert_ne in Hsome by done. by apply Hidx.
Qed.

(** X14. With the default extensions, every key of the index starts
    with the date searched for, written [YYYY-MM-DD], and a [T]: no file
    of another day is indexed. *)
Theorem index_keys_start_with_date (cwd : node) (location : string)
    (selected_date : date) (idx : file_index) (timestamp : string) :
  find_files_by_date cwd location selected_date default_extensions = inr idx ->
  is_Some (idx !! timestamp) ->
  String.prefix (date_strftime selected_date +:+ "T") timestamp = true.
Proof.
  intros Hfind.
  assert (Hall : all_keys
            (fun ts => String.prefix (date_strftime selected_date +:+ "T") ts
                       = true) idx).
  { unfold find_files_by_date in Hfind.
    destruct (resolve ["output"; location] cwd) as [[|entries]|].
    - discriminate.
    - injection Hfind as <-.
      apply (inv_scan_entries ("output/" +:+ location)
               (date_strftime selected_date) default_extensions).
      + intros m ts kind path Hm Horigin.
        apply all_keys_add_file; [exact Hm|].
        destruct Horigin as [(_ & s & n & _ & Hmatch & ->)
                            |(_ & s & n & _ & Hmatch & ->)];
          by apply matched_stem_prefix in Hmatch.
      + intros ts [? Hts]. by rewrite lookup_empty in Hts.
    - injection Hfind as <-. intros ts [? Hts].
      by rewrite lookup_empty in Hts. }
  apply Hall.
Qed.

Lemma index_keys_start_with_date_witness :
  String.prefix (date_strftime (mk_date 2025 9 1) +:+ "T")
    "2025-09-01T00-00-00-000000" = true.
Proof.
  apply (index_keys_start_with_date
           (Dir [("output",
                  Dir [("orcasound_lab",
                        Dir [("session",
                              Dir [("wav",
                                    Dir [("2025-09-01T00-00-00-000000.wav",
                                          File);
                                         ("2025-09-02T00-00-00-000000.wav",
                                          File)])])])])])
           "orcasound_lab" (mk_date 2025 9 1)
           {[ "2025-09-01T00-00-00-000000" :=
                {[ ".wav" := "output/orcasound_lab/session/wav/2025-09-01T00-00-00-000000.wav" ]} ]}
           "2025-09-01T00-00-00-000000").
  - vm_compute. reflexivity.
  - rewrite lookup_singleton_eq. eauto.
Defined.

(** X15. With the default extensions, the path stored for a key under a
    kind is rebuilt from the key: it is the session directory, then [wav]
    for the kinds [.wav] and [.pickle], [pkl/bb] for [bb], [pkl/psd] for
    [psd], then the key followed by the extension ([.wav] for [.wav],
    [.pickle] for the three others). *)
Theorem index_path_from_key (cwd : node) (location : string)
    (selected_date : date) (idx : file_index)
    (timestamp kind path : string) (info : file_info) :
  find_files_by_date cwd location selected_date default_extensions
  = inr idx ->
  idx !! timestamp = Some info ->
  info !! kind = Some path ->
  exists session,
    path = ((("output/" +:+ location) +:+ "/" +:+ session)
            +:+ "/" +:+ kind_directory kind)
           +:+ "/" +:+ timestamp +:+ kind_extension kind.
Proof.
  intros Hfind Hts Hkind.
  assert (Horigin : origin ("output/" +:+ location)
                      (date_strftime selected_date) default_extensions
                      timestamp kind path).
  { unfold find_files_by_date in Hfind.
    destruct (resolve ["output"; location] cwd) as [[|entries]|].
    - discriminate.
    - injection Hfind as <-.
      by apply (origin_scan_entries ("output/" +:+ location)
                  (date_strftime selected_date) default_extensions entries
                  timestamp info kind path).
    - injection Hfind as <-. by rewrite lookup_empty in Hts. }
  destruct Horigin as [(Hk & s & n & -> & Hmatch & ->)
                      |(Hk & s & n & -> & Hmatch & ->)];
    exists s.
  - unfold default_extensions in Hk.
    apply elem_of_cons in Hk as [->|Hk];
      [|apply elem_of_cons in Hk as [->|Hk]; [|by apply elem_of_nil in Hk]].
    + apply (matched_name_stem selected_date "wav") in Hmatch; [|done..].
      change (kind_extension ".wav") with ".wav".
      change (kind_directory ".wav") with "wav".
      by rewrite <- Hmatch.
    + apply (matched_name_stem selected_date "pickle") in Hmatch; [|done..].
      change (kind_extension ".pickle") with ".pickle".
      change (kind_directory ".pickle") with "wav".
      by rewrite <- Hmatch.
  - apply (matched_name_stem selected_date "pickle") in Hmatch; [|done..].
    apply elem_of_cons in Hk as [->|Hk];
      [|apply elem_of_cons in Hk as [->|Hk]; [|by apply elem_of_nil in Hk]].
    + change (kind_extension "bb") with ".pickle".
      change (kind_directory "bb") with "pkl/bb".
      by rewrite <- Hmatch.
    + change (kind_extension "psd") with ".pickle".
      change (kind_directory "psd") with "pkl/psd".
      by rewrite <- Hmatch.
Qed.

Lemma index_path_from_key_witness :
  exists session,
    "output/orcasound_lab/s1/pkl/psd/2025-09-01T00-00-00-000000.pickle"
    = ((("output/" +:+ "orcasound_lab") +:+ "/" +:+ session)
       +:+ "/" +:+ kind_directory "psd")
      +:+ "/" +:+ "2025-09-01T00-00-00-000000" +:+ kind_extension "psd".
Proof.
  apply (index_path_from_key
           (Dir [("output",
                  Dir [("orcasound_lab",
                        Dir [("s1",
                              Dir [("pkl",
                                    Dir [("psd",
                                          Dir [("2025-09-01T00-00-00-000000.pickle",
                                                File)])])])])])])
           "orcasound_lab" (mk_date 2025 9 1)
           {[ "2025-09-01T00-00-00-000000" :=
                {[ "psd" := "output/orcasound_lab/s1/pkl/psd/2025-09-01T00-00-00-000000.pickle" ]} ]}
           "2025-09-01T00-00-00-000000" "psd"
           "output/orcasound_lab/s1/pkl/psd/2025-09-01T00-00-00-000000.pickle"
           {[ "psd" := "output/orcasound_lab/s1/pkl/psd/2025-09-01T00-00-00-000000.pickle" ]}).
  - vm_compute. reflexivity.
  - apply lookup_singleton_eq.
  - apply lookup_singleton_eq.
Defined.

(** ** Nothing a pattern matches is left out *)

Section Completeness.

Lemma indexed_add_file_new (idx : file_index) (ts kind path : string) :
  indexed (add_file idx ts kind path) ts kind.
Proof.
  unfold indexed, add_file. eexists. rewrite lookup_insert_eq.
  split; [reflexivity|]. rewrite lookup_insert_eq. eauto.
Qed.

Lemma indexed_add_file_mono (idx : file_index) (ts kind path ts' kind' : string) :
  indexed idx ts' kind' -> indexed (add_file idx ts kind path) ts' kind'.
Proof.
  intros (info & Hts & Hk). unfold indexed, add_file.
  destruct (decide (ts = ts')) as [<-|Hne].
  - eexists. rewrite lookup_insert_eq. split; [reflexivity|].
    rewrite Hts. cbn [default].
    destruct (decide (kind = kind')) as [<-|Hk'].
    + rewrite lookup_insert_eq. eauto.
    + by rewrite lookup_insert_ne.
  - exists info. by rewrite lookup_insert_ne.
Qed.

(** A step of a loop that establishes [P], followed by steps that keep
    it. *)
Lemma foldl_reaches {A B} (P : A -> Prop) (f : A -> B -> A)
    (l : list B) (a : A) (x : B) :
  x ∈ l ->
  (forall a, P (f a x)) ->
  (forall a y, P a -> P (f a y)) ->
  P (foldl f a l).
Proof.
  intros Hx Hnew Hkeep. revert a.
  induction l as [|y l IH]; intros a; [by apply elem_of_nil in Hx|].
  cbn [foldl]. apply elem_of_cons in Hx as [<-|Hx].
  - apply foldl_invariant; [apply Hnew|]. intros a' y' _. apply Hkeep.
  - by apply IH.
Qed.

Lemma indexed_add_matches_mono (dir_path kind : string)
    (files : list string) (idx : file_index) (ts' kind' : string) :
  indexed idx ts' kind' ->
  indexed (add_matches dir_path kind files idx) ts' kind'.
Proof.
  intros Hidx. unfold add_matches.
  apply (foldl_invariant (fun m => indexed m ts' kind')); [exact Hidx|].
  intros m name _ Hm. by apply indexed_add_file_mono.
Qed.

Lemma indexed_add_matches_new (dir_path kind : string)
    (files : list string) (idx : file_index) (name : string) :
  name ∈ files ->
  indexed (add_matches dir_path kind files idx) (stem name) kind.
Proof.
  intros Hname. unfold add_matches.
  apply (foldl_reaches (fun m => indexed m (stem name) kind) _ _ _ name);
    [exact Hname| |].
  - intros m. apply indexed_add_file_new.
  - intros m y Hm. by apply indexed_add_file_mono.
Qed.

Variables (data_path date_str : string) (file_extensions : list string).

Lemma indexed_scan_wav_mono (subdir_path : string) (subdir : node)
    (idx : file_index) (ts' kind' : string) :
  indexed idx ts' kind' ->
  indexed (scan_wav subdir_path subdir date_str file_extensions idx)
    ts' kind'.
Proof.
  intros Hidx. unfold scan_wav.
  destruct (child "wav" subdir) as [wav_dir|]; [|exact Hidx].
  apply (foldl_invariant (fun m => indexed m ts' kind')); [exact Hidx|].
  intros m ext _ Hm. by apply indexed_add_matches_mono.
Qed.

Lemma indexed_scan_pkl_mono (subdir_path : string) (subdir : node)
    (idx : file_index) (ts' kind' : string) :
  indexed idx ts' kind' ->
  indexed (scan_pkl subdir_path subdir date_str idx) ts' kind'.
Proof.
  intros Hidx. unfold scan_pkl.
  apply (foldl_invariant (fun m => indexed m ts' kind')); [exact Hidx|].
  intros m pkl_subdir _ Hm.
  destruct (resolve (split_slash pkl_subdir) subdir); [|exact Hm].
  by apply indexed_add_matches_mono.
Qed.

Lemma indexed_scan_subdir_mono (idx : file_index) (entry : string * node)
    (ts' kind' : string) :
  indexed idx ts' kind' ->
  indexed (scan_subdir data_path date_str file_extensions idx entry)
    ts' kind'.
Proof.
  intros Hidx. destruct entry as [session subdir]. unfold scan_subdir.
  destruct (is_dir subdir); [|exact Hidx].
  by apply indexed_scan_pkl_mono, indexed_scan_wav_mono.
Qed.

Lemma indexed_scan_wav_new (subdir_path : string) (subdir wav_dir : node)
    (idx : file_index) (ext name : string) :
  child "wav" subdir = Some wav_dir ->
  ext ∈ file_extensions ->
  name ∈ glob wav_dir (date_str +:+ "T") ext ->
  indexed (scan_wav subdir_path subdir date_str file_extensions idx)
    (stem name) ext.
Proof.
  intros Hwav Hext Hname. unfold scan_wav. rewrite Hwav.
  apply (foldl_reaches (fun m => indexed m (stem name) ext) _ _ _ ext);
    [exact Hext| |].
  - intros m. by apply indexed_add_matches_new.
  - intros m y Hm. by apply indexed_add_matches_mono.
Qed.

Lemma indexed_scan_pkl_new (subdir_path : string) (subdir pkl_path : node)
    (idx : file_index) (pkl_subdir name : string) :
  pkl_subdir ∈ pkl_dirs ->
  resolve (split_slash pkl_subdir) subdir = Some pkl_path ->
  name ∈ glob pkl_path (date_str +:+ "T") ".pickle" ->
  indexed (scan_pkl subdir_path subdir date_str idx) (stem name)
    (default "" (split_slash pkl_subdir !! 1%nat)).
Proof.
  intros Hin Hres Hname. unfold scan_pkl.
  apply (foldl_reaches
           (fun m => indexed m (stem name)
                       (default "" (split_slash pkl_subdir !! 1%nat)))
           _ _ _ pkl_subdir); [exact Hin| |].
  - intros m. rewrite Hres. by apply indexed_add_matches_new.
  - intros m y Hm.
    destruct (resolve (split_slash y) subdir); [|exact Hm].
    by apply indexed_add_matches_mono.
Qed.

End Completeness.

(** X16. With the default extensions, every name a pattern matches in
    a session directory is indexed: a name in the [wav] subdirectory
    matched for [.wav] or [.pickle] has an entry under its stem with that
    extension as kind, and a name matched in [pkl/bb] or [pkl/psd] has an
    entry under its stem with the kind [bb] or [psd]. *)
Theorem index_complete (cwd : node) (location : string)
    (selected_date : date)
    (entries : list (string * node)) (session : string) (subdir : node)
    (idx : file_index) :
  resolve ["output"; location] cwd = Some (Dir entries) ->
  (session, subdir) ∈ entries ->
  is_dir subdir = true ->
  find_files_by_date cwd location selected_date default_extensions = inr idx ->
  (forall wav_dir ext name,
     child "wav" subdir = Some wav_dir ->
     ext ∈ default_extensions ->
     name ∈ glob wav_dir (date_strftime selected_date +:+ "T") ext ->
     indexed idx (stem name) ext)
  /\ (forall pkl_path name,
        resolve ["pkl"; "bb"] subdir = Some pkl_path ->
        name ∈ glob pkl_path (date_strftime selected_date +:+ "T") ".pickle" ->
        indexed idx (stem name) "bb")
  /\ (forall pkl_path name,
        resolve ["pkl"; "psd"] subdir = Some pkl_path ->
        name ∈ glob pkl_path (date_strftime selected_date +:+ "T") ".pickle" ->
        indexed idx (stem name) "psd").
Proof.
  intros Hroot Hentry Hdir Hfind. unfold find_files_by_date in Hfind.
  rewrite Hroot in Hfind. injection Hfind as <-.
  assert (Hreach : forall ts kind,
            (forall m, indexed
               (scan_subdir ("output/" +:+ location)
                  (date_strftime selected_date) default_extensions m
                  (session, subdir)) ts kind) ->
            indexed
              (foldl (scan_subdir ("output/" +:+ location)
                        (date_strftime selected_date) default_extensions)
                 ∅ entries) ts kind).
  { intros ts kind Hnew.
    apply (foldl_reaches (fun m => indexed m ts kind) _ _ _
             (session, subdir)); [exact Hentry|exact Hnew|].
    intros m y Hm. by apply indexed_scan_subdir_mono. }
  split; [|split].
  - intros wav_dir ext name Hwav Hext Hname. apply Hreach. intros m.
    unfold scan_subdir. rewrite Hdir.
    apply indexed_scan_pkl_mono.
    by apply (indexed_scan_wav_new _ _ _ subdir wav_dir).
  - intros pkl_path name Hres Hname. apply Hreach. intros m.
    unfold scan_subdir. rewrite Hdir.
    apply (indexed_scan_pkl_new (date_strftime selected_date) _ subdir
             pkl_path _ "pkl/bb" name); [left|exact Hres|exact Hname].
  - intros pkl_path name Hres Hname. apply Hreach. intros m.
    unfold scan_subdir. rewrite Hdir.
    apply (indexed_scan_pkl_new (date_strftime selected_date) _ subdir
             pkl_path _ "pkl/psd" name);
      [right; left|exact Hres|exact Hname].
Qed.

Lemma index_complete_witness :
  indexed
    {[ "2025-09-01T00-00-00-000000" :=
         {[ ".wav" := "output/orcasound_lab/s1/wav/2025-09-01T00-00-00-000000.wav" ]} ]}
    (stem "2025-09-01T00-00-00-000000.wav") ".wav".
Proof.
  destruct (index_complete
              (Dir [("output",
                     Dir [("orcasound_lab",
                           Dir [("s1",
                                 Dir [("wav",
                                       Dir [("2025-09-01T00-00-00-000000.wav",
                                             File)])])])])])
              "orcasound_lab" (mk_date 2025 9 1)
              [("s1", Dir [("wav", Dir [("2025-09-01T00-00-00-000000.wav",
                                         File)])])]
              "s1"
              (Dir [("wav", Dir [("2025-09-01T00-00-00-000000.wav", File)])])
              {[ "2025-09-01T00-00-00-000000" :=
                   {[ ".wav" := "output/orcasound_lab/s1/wav/2025-09-01T00-00-00-000000.wav" ]} ]})
    as (Hwav & _ & _).
  - reflexivity.
  - left.
  - reflexivity.
  - vm_compute. reflexivity.
  - apply (Hwav (Dir [("2025-09-01T00-00-00-000000.wav", File)]) ".wav"
             "2025-09-01T00-00-00-000000.wav").
    + reflexivity.
    + left.
    + vm_compute. left.
Defined.

(** ** The session scanned last wins *)

Section LastWins.

Lemma slot_is_add_file_new (idx : file_index) (ts kind path : string) :
  slot_is (add_file idx ts kind path) ts kind path.
Proof.
  unfold slot_is, add_file. eexists. rewrite lookup_insert_eq.
  split; [reflexivity|]. apply lookup_insert_eq.
Qed.

Lemma slot_is_add_file_keep (idx : file_index)
    (ts kind path ts' kind' path' : string) :
  slot_is idx ts kind path ->
  ts' <> ts \/ kind' <> kind \/ path' = path ->
  slot_is (add_file idx ts' kind' path') ts kind path.
Proof.
  intros (info & Hts & Hk) Hother. unfold slot_is, add_file.
  destruct (decide (ts' = ts)) as [->|Hne].
  - eexists. rewrite lookup_insert_eq. split; [reflexivity|].
    rewrite Hts. cbn [default].
    destruct (decide (kind' = kind)) as [->|Hk'].
    + rewrite lookup_insert_eq. destruct Hother as [? | [? | ->]]; done.
    + by rewrite lookup_insert_ne.
  - exists info. by rewrite lookup_insert_ne.
Qed.

Lemma foldl_reaches_in {A B} (P : A -> Prop) (f : A -> B -> A)
    (l : list B) (a : A) (x : B) :
  x ∈ l ->
  (forall a, P (f a x)) ->
  (forall a y, y ∈ l -> P a -> P (f a y)) ->
  P (foldl f a l).
Proof.
  intros Hx Hnew Hkeep. revert a.
  induction l as [|y l IH]; intros a; [by apply elem_of_nil in Hx|].
  cbn [foldl]. apply elem_of_cons in Hx as [<-|Hx].
  - apply foldl_invariant; [apply Hnew|].
    intros a' y' Hy'. apply Hkeep. by right.
  - apply IH; [exact Hx|]. intros a' y' Hy'. apply Hkeep. by right.
Qed.

Lemma slot_is_add_matches_keep (dir_path kind' : string)
    (files : list string) (idx : file_index) (ts kind path : string) :
  slot_is idx ts kind path ->
  kind' <> kind ->
  slot_is (add_matches dir_path kind' files idx) ts kind path.
Proof.
  intros Hidx Hk. unfold add_matches.
  apply (foldl_invariant (fun m => slot_is m ts kind path)); [exact Hidx|].
  intros m name _ Hm. apply slot_is_add_file_keep; auto.
Qed.

Lemma slot_is_add_matches_new (dir_path kind : string)
    (files : list string) (idx : file_index) (name : string) :
  name ∈ files ->
  (forall n, n ∈ files -> stem n = stem name -> n = name) ->
  slot_is (add_matches dir_path kind files idx) (stem name) kind
    (dir_path +:+ "/" +:+ name).
Proof.
  intros Hname Huniq. unfold add_matches.
  apply (foldl_reaches_in
           (fun m => slot_is m (stem name) kind (dir_path +:+ "/" +:+ name))
           _ _ _ name); [exact Hname| |].
  - intros m. apply slot_is_add_file_new.
  - intros m n Hn Hm. apply slot_is_add_file_keep; [exact Hm|].
    destruct (decide (stem n = stem name)) as [Heq|Hne]; [|by left].
    right; right. by rewrite (Huniq n Hn Heq).
Qed.

Lemma slot_is_scan_pkl_keep (subdir_path : string) (subdir : node)
    (date_str : string) (idx : file_index) (ts kind path : string) :
  slot_is idx ts kind path ->
  kind <> "bb" -> kind <> "psd" ->
  slot_is (scan_pkl subdir_path subdir date_str idx) ts kind path.
Proof.
  intros Hidx Hbb Hpsd. unfold scan_pkl, pkl_dirs. cbn [foldl].
  change (default "" (split_slash "pkl/bb" !! 1%nat)) with "bb".
  change (default "" (split_slash "pkl/psd" !! 1%nat)) with "psd".
  destruct (resolve (split_slash "pkl/bb") subdir),
    (resolve (split_slash "pkl/psd") subdir);
    repeat apply slot_is_add_matches_keep; auto.
Qed.

End LastWins.

(** X17. When several session directories hold a file of the same name,
    the one enumerated last wins: with the default extensions, a name
    matched in the [wav] subdirectory of the last session directory is
    indexed with the path inside that session, whatever the earlier
    sessions hold. *)
Theorem last_session_wins (cwd : node) (location : string)
    (selected_date : date) (earlier : list (string * node))
    (session : string) (subdir wav_dir : node) (ext name : string)
    (idx : file_index) :
  resolve ["output"; location] cwd
  = Some (Dir (earlier ++ [(session, subdir)])) ->
  is_dir subdir = true ->
  child "wav" subdir = Some wav_dir ->
  ext ∈ default_extensions ->
  name ∈ glob wav_dir (date_strftime selected_date +:+ "T") ext ->
  find_files_by_date cwd location selected_date default_extensions
  = inr idx ->
  slot_is idx (stem name) ext
    (((("output/" +:+ location) +:+ "/" +:+ session) +:+ "/wav")
     +:+ "/" +:+ name).
Proof.
  intros Hroot Hdir Hwav Hext Hname Hfind.
  unfold find_files_by_date in Hfind. rewrite Hroot in Hfind.
  injection Hfind as <-. rewrite foldl_app. cbn [foldl].
  unfold scan_subdir. rewrite Hdir.
  assert (Huniq : forall body, body <> "" -> has_char "." body = false ->
            name ∈ glob wav_dir (date_strftime selected_date +:+ "T")
                     (String "." body) ->
            forall n,
              n ∈ glob wav_dir (date_strftime selected_date +:+ "T")
                    (String "." body) ->
              stem n = stem name -> n = name).
  { intros body Hb Hd Hin n Hn Heq.
    apply elem_of_glob, (matched_name_stem _ body) in Hin; [|done..].
    apply elem_of_glob, (matched_name_stem _ body) in Hn; [|done..].
    rewrite Hin, Hn, Heq. reflexivity. }
  unfold default_extensions in Hext.
  apply elem_of_cons in Hext as [->|Hext];
    [|apply elem_of_cons in Hext as [->|Hext];
      [|by apply elem_of_nil in Hext]].
  - apply slot_is_scan_pkl_keep; [|done..].
    unfold scan_wav. rewrite Hwav. unfold default_extensions. cbn [foldl].
    apply slot_is_add_matches_keep; [|done].
    apply slot_is_add_matches_new; [exact Hname|].
    by apply (Huniq "wav").
  - apply slot_is_scan_pkl_keep; [|done..].
    unfold scan_wav. rewrite Hwav. unfold default_extensions. cbn [foldl].
    apply slot_is_add_matches_new; [exact Hname|].
    by apply (Huniq "pickle").
Qed.

Lemma last_session_wins_witness :
  slot_is
    {[ "2025-09-01T00-00-00-000000" :=
         {[ ".wav" := "output/sandbox/s2/wav/2025-09-01T00-00-00-000000.wav" ]} ]}
    (stem "2025-09-01T00-00-00-000000.wav") ".wav"
    (((("output/" +:+ "sandbox") +:+ "/" +:+ "s2") +:+ "/wav")
     +:+ "/" +:+ "2025-09-01T00-00-00-000000.wav").
Proof.
  apply (last_session_wins
           (Dir [("output",
                  Dir [("sandbox",
                        Dir [("s1",
                              Dir [("wav",
                                    Dir [("2025-09-01T00-00-00-000000.wav",
                                          File)])]);
                             ("s2",
                              Dir [("wav",
                                    Dir [("2025-09-01T00-00-00-000000.wav",
                                          File)])])])])])
           "sandbox" (mk_date 2025 9 1)
           [("s1", Dir [("wav", Dir [("2025-09-01T00-00-00-000000.wav",
                                      File)])])]
           "s2"
           (Dir [("wav", Dir [("2025-09-01T00-00-00-000000.wav", File)])])
           (Dir [("2025-09-01T00-00-00-000000.wav", File)])
           ".wav" "2025-09-01T00-00-00-000000.wav").
  - reflexivity.
  - reflexivity.
  - reflexivity.
  - left.
  - vm_compute. left.
  - vm_compute. reflexivity.
Defined.

(** ** The file name in the title of a figure *)

Section Titles.

Lemma split_slash_aux_no_slash (cur name : string) :
  has_char "/" name = false ->
  split_slash_aux cur name = [String.rev cur +:+ name].
Proof.
  revert cur. induction name as [|c name IH]; intros cur Hno.
  - cbn [split_slash_aux]. by rewrite app_empty_r.
  - cbn [has_char] in Hno. apply orb_false_iff in Hno as [Hc Hno].
    cbn [split_slash_aux]. rewrite Ascii.eqb_sym, Hc.
    rewrite (IH (String c cur) Hno), rev_cons, app_assoc_s.
    reflexivity.
Qed.

Lemma last_split_slash_aux (cur dir name : string) :
  has_char "/" name = false ->
  last (split_slash_aux cur (dir +:+ String "/" name)) = Some name.
Proof.
  intros Hno. revert cur.
  induction dir as [|c dir IH]; intros cur.
  - rewrite app_empty_l. cbn [split_slash_aux].
    change (Ascii.eqb "/" "/") with true. cbv iota.
    by rewrite (split_slash_aux_no_slash EmptyString name Hno).
  - rewrite app_cons. cbn [split_slash_aux].
    destruct (Ascii.eqb c "/"); [|apply IH].
    rewrite last_cons, IH. reflexivity.
Qed.

(** The last component of [dir/name] is [name]. *)
Lemma last_component_of_path (dir name : string) :
  has_char "/" name = false ->
  Plotutils.last_component (dir +:+ "/" +:+ name) = name.
Proof.
  intros Hno. unfold Plotutils.last_component, split_slash.
  change ("/" +:+ name) with (String "/" name).
  by rewrite last_split_slash_aux.
Qed.

Variables sample farray exn : Type.
Variable wavfile_read : string -> exn + (Z * ndarray sample).
Variable spectrogram :
  list sample -> Z -> Z -> Z -> exn + (farray * farray * farray).
Variable to_db : farray -> farray.

(** X18. The title of a figure names the file without its directories:
    for a path [dir/name], it is ["Spectrogram: name"] for samples of one
    dimension and ["Stereo Spectrogram: name"] for samples of two. *)
Theorem figure_title_names_file (dir name : string) (nfft : Z)
    (noverlap : option Z) (samplerate : Z) (data : ndarray sample)
    (fig : figure farray) :
  has_char "/" name = false ->
  wavfile_read (dir +:+ "/" +:+ name) = inr (samplerate, data) ->
  create_plotly_spectrogram sample farray exn wavfile_read spectrogram
    to_db (dir +:+ "/" +:+ name) nfft noverlap = inr fig ->
  fig_title fig
  = (if decide (length (shape data) = 1%nat)
     then "Spectrogram: " else "Stereo Spectrogram: ") +:+ name.
Proof.
  intros Hno Hread Hfig. unfold create_plotly_spectrogram in Hfig.
  rewrite Hread in Hfig.
  destruct (shape data) as [|n [|k [|x rest]]]; try discriminate.
  - unfold mono_figure in Hfig.
    destruct (spectrogram _ _ _ _) as [?|[[? ?] ?]]; [discriminate|].
    injection Hfig as <-. cbn [fig_title length].
    by rewrite (last_component_of_path dir name Hno).
  - unfold stereo_figure in Hfig.
    destruct (Plotutils.channel_trace _ _ _ _ _ _ _ _ _ _ _ 0);
      [discriminate|].
    destruct (Plotutils.channel_trace _ _ _ _ _ _ _ _ _ _ _ 1);
      [discriminate|].
    injection Hfig as <-. cbn [fig_title length].
    by rewrite (last_component_of_path dir name Hno).
Qed.

End Titles.

Lemma figure_title_names_file_witness :
  fig_title
    {| fig_grid := None; fig_subplot_titles := [];
       fig_traces :=
         [mk_trace
            (mk_heatmap [1; 2; 3] [1; 2; 3] [1; 2; 3] "Viridis" None
               (Some "Power (dB)") hover_mono) None];
       fig_title := "Spectrogram: k.wav";
       fig_xaxis_titles := [(None, "Time (s)")];
       fig_yaxis_titles := [(None, "Frequency (Hz)")];
       fig_width := 800; fig_height := 500 |}
  = (if decide (length (shape (mk_ndarray [3%nat] [1; 2; 3])) = 1%nat)
     then "Spectrogram: " else "Stereo Spectrogram: ") +:+ "k.wav".
Proof.
  apply (figure_title_names_file Z (list Z) string
           (fun _ => inr (44100, mk_ndarray [3%nat] [1; 2; 3]))
           (fun xs _ _ _ => inr (xs, xs, xs)) (fun S => S)
           "output/sandbox/s1/wav" "k.wav" 256 None 44100
           (mk_ndarray [3%nat] [1; 2; 3]));
    reflexivity.
Defined.

(** ** The order of keys *)

Import Sidebar.

Section KeyOrder.

Lemma ascii_compare_digit_char (a b : Z) :
  Ascii.compare (digit_char a) (digit_char b) = (a mod 10 ?= b mod 10).
Proof.
  unfold digit_char.
  assert (Ha : exists i : nat, a mod 10 = Z.of_nat i /\ (i < 10)%nat).
  { exists (Z.to_nat (a mod 10)).
    pose proof (Z.mod_pos_bound a 10 ltac:(lia)). lia. }
  assert (Hb : exists j : nat, b mod 10 = Z.of_nat j /\ (j < 10)%nat).
  { exists (Z.to_nat (b mod 10)).
    pose proof (Z.mod_pos_bound b 10 ltac:(lia)). lia. }
  destruct Ha as (i & -> & Hi). destruct Hb as (j & -> & Hj).
  do 10 (destruct i as [|i];
         [do 10 (destruct j as [|j]; [vm_compute; reflexivity|]); lia|]).
  lia.
Qed.

Lemma string_compare_cons (x y : ascii) (r1 r2 : string) :
  String.compare (String x r1) (String y r2)
  = match Ascii.compare x y with
    | Eq => String.compare r1 r2
    | c => c
    end.
Proof. reflexivity. Qed.

(** Two numbers written with the same number of digits compare as
    texts the way they compare as numbers. *)
Lemma compare_zfill (w : nat) (a b : Z) (r1 r2 : string) :
  0 <= a < 10 ^ Z.of_nat w -> 0 <= b < 10 ^ Z.of_nat w ->
  String.compare (zfill w a +:+ r1) (zfill w b +:+ r2)
  = match a ?= b with
    | Eq => String.compare r1 r2
    | c => c
    end.
Proof.
  revert a b r1 r2. induction w as [|w IH]; intros a b r1 r2 Ha Hb.
  - change (10 ^ Z.of_nat 0) with 1 in *.
    assert (a = 0) as -> by lia. assert (b = 0) as -> by lia.
    reflexivity.
  - rewrite Nat2Z.inj_succ, Z.pow_succ_r in Ha, Hb by lia.
    cbn [zfill]. rewrite !app_assoc_s, !app_cons, !app_empty_l.
    rewrite IH by (split; [apply Z.div_pos; lia
                          |apply Z.div_lt_upper_bound; lia]).
    rewrite string_compare_cons, ascii_compare_digit_char.
    pose proof (Z.div_mod a 10 ltac:(lia)).
    pose proof (Z.div_mod b 10 ltac:(lia)).
    pose proof (Z.mod_pos_bound a 10 ltac:(lia)).
    pose proof (Z.mod_pos_bound b 10 ltac:(lia)).
    destruct (Z.compare_spec (a / 10) (b / 10));
      [destruct (Z.compare_spec (a mod 10) (b mod 10))| |];
      destruct (Z.compare_spec a b); try reflexivity; lia.
Qed.

Lemma compare_dash (r1 r2 : string) :
  String.compare ("-" +:+ r1) ("-" +:+ r2) = String.compare r1 r2.
Proof. reflexivity. Qed.

Lemma compare_T (r1 r2 : string) :
  String.compare ("T" +:+ r1) ("T" +:+ r2) = String.compare r1 r2.
Proof. reflexivity. Qed.

Lemma string_compare_refl (s : string) : String.compare s s = Eq.
Proof.
  induction s as [|c s IH]; [reflexivity|].
  rewrite string_compare_cons. unfold Ascii.compare.
  by rewrite N.compare_refl.
Qed.

(** The keys of two valid date-times compare as texts the way the
    date-times compare. *)
Lemma compare_strftime (d1 d2 : datetime) :
  valid_datetime d1 -> valid_datetime d2 ->
  String.compare (strftime d1) (strftime d2) = datetime_cmp d1 d2.
Proof.
  intros H1 H2. unfold valid_datetime in H1, H2.
  apply datetime_new_Some in H1 as (_ & Hy1 & Hm1 & Hd1 & HH1 & HM1 & HS1 & Hf1).
  apply datetime_new_Some in H2 as (_ & Hy2 & Hm2 & Hd2 & HH2 & HM2 & HS2 & Hf2).
  assert (Hd1' : 1 <= day d1 <= 31).
  { revert Hd1. unfold days_in_month.
    repeat match goal with |- context [if ?b then _ else _] => destruct b end;
      lia. }
  assert (Hd2' : 1 <= day d2 <= 31).
  { revert Hd2. unfold days_in_month.
    repeat match goal with |- context [if ?b then _ else _] => destruct b end;
      lia. }
  unfold strftime, datetime_cmp, time_cmp, time_of.
  cbn [hour minute second microsecond].
  rewrite <- (app_empty_r (zfill 6 (dt_microsecond d1))).
  rewrite <- (app_empty_r (zfill 6 (dt_microsecond d2))).
  rewrite (compare_zfill 4) by (change (10 ^ Z.of_nat 4) with 10000; lia).
  rewrite compare_dash.
  rewrite (compare_zfill 2) by (change (10 ^ Z.of_nat 2) with 100; lia).
  rewrite compare_dash.
  rewrite (compare_zfill 2) by (change (10 ^ Z.of_nat 2) with 100; lia).
  rewrite compare_T.
  rewrite (compare_zfill 2) by (change (10 ^ Z.of_nat 2) with 100; lia).
  rewrite compare_dash.
  rewrite (compare_zfill 2) by (change (10 ^ Z.of_nat 2) with 100; lia).
  rewrite compare_dash.
  rewrite (compare_zfill 2) by (change (10 ^ Z.of_nat 2) with 100; lia).
  rewrite compare_dash.
  rewrite (compare_zfill 6) by (change (10 ^ Z.of_nat 6) with 1000000; lia).
  change (String.compare "" "") with Eq.
  destruct (year d1 ?= year d2), (month d1 ?= month d2),
    (day d1 ?= day d2), (dt_hour d1 ?= dt_hour d2),
    (dt_minute d1 ?= dt_minute d2), (dt_second d1 ?= dt_second d2),
    (dt_microsecond d1 ?= dt_microsecond d2); reflexivity.
Qed.

End KeyOrder.

(** X19. For keys in the form the layout writes, the order of the texts
    is the order of the instants: comparing the keys of two valid
    date-times as strings gives what comparing the date-times gives. *)
Theorem key_order_is_chronological (k1 k2 : string) (d1 d2 : datetime) :
  timestamp_key k1 -> timestamp_key k2 ->
  strptime k1 = Some d1 -> strptime k2 = Some d2 ->
  String.compare k1 k2 = datetime_cmp d1 d2.
Proof.
  intros (d1' & Hv1 & <-) (d2' & Hv2 & <-) Hp1 Hp2.
  rewrite strptime_strftime in Hp1, Hp2 by assumption.
  injection Hp1 as ->. injection Hp2 as ->.
  by apply compare_strftime.
Qed.

Lemma key_order_is_chronological_witness :
  String.compare "2025-09-01T09-59-59-999999" "2025-09-01T10-00-00-000000"
  = datetime_cmp (mk_datetime 2025 9 1 9 59 59 999999)
      (mk_datetime 2025 9 1 10 0 0 0).
Proof.
  apply (key_order_is_chronological
           "2025-09-01T09-59-59-999999" "2025-09-01T10-00-00-000000"
           (mk_datetime 2025 9 1 9 59 59 999999)
           (mk_datetime 2025 9 1 10 0 0 0)).
  - exists (mk_datetime 2025 9 1 9 59 59 999999).
    split; vm_compute; reflexivity.
  - exists (mk_datetime 2025 9 1 10 0 0 0).
    split; vm_compute; reflexivity.
  - vm_compute. reflexivity.
  - vm_compute. reflexivity.
Defined.

(** Keys that parse but are not in that form need not sort in the order
    of their instants: 9 o'clock written without its zero sorts after
    10 o'clock. *)
Example unpadded_keys_sort_out_of_order :
  strptime "2025-09-01T9-00-00-0" = Some (mk_datetime 2025 9 1 9 0 0 0)
  /\ strptime "2025-09-01T10-00-00-0" = Some (mk_datetime 2025 9 1 10 0 0 0)
  /\ String.compare "2025-09-01T9-00-00-0" "2025-09-01T10-00-00-0" = Gt
  /\ datetime_cmp (mk_datetime 2025 9 1 9 0 0 0)
       (mk_datetime 2025 9 1 10 0 0 0) = Lt.
Proof. repeat split; vm_compute; reflexivity. Qed.

(** ** The timestamps offered for selection *)

Section Offered.

Lemma StronglySorted_weaken {A} (R R' : relation A) (P : A -> Prop)
    (l : list A) :
  Forall P l ->
  (forall x y, P x -> P y -> R x y -> R' x y) ->
  StronglySorted R l -> StronglySorted R' l.
Proof.
  intros HP Himpl Hsorted.
  induction Hsorted as [|x l Hsorted IH Hall]; [constructor|].
  apply Forall_cons in HP as [Hx HP]. constructor; [by apply IH|].
  apply Forall_forall. intros y Hy.
  apply Himpl; [exact Hx| |].
  - by apply (proj1 (Forall_forall P l) HP).
  - by apply (proj1 (Forall_forall (R x) l) Hall).
Qed.

Lemma elem_of_sorted_timestamps (m : file_index) (ts : string) :
  ts ∈ sorted_timestamps m <-> is_Some (m !! ts).
Proof.
  unfold sorted_timestamps. rewrite merge_sort_Permutation.
  rewrite list_elem_of_fmap. split.
  - intros ([k v] & -> & Hin). apply elem_of_map_to_list in Hin.
    cbn [fst]. eauto.
  - intros [v Hv]. exists (ts, v). split; [reflexivity|].
    by apply elem_of_map_to_list.
Qed.

End Offered.

(** X20. The timestamps offered for selection are the keys of the
    filtered index, each once: whichever one is selected, the lookup of
    its files in the index succeeds. *)
Theorem offered_timestamps_are_the_keys (available_files : file_index) :
  NoDup (sorted_timestamps available_files)
  /\ (forall ts, ts ∈ sorted_timestamps available_files
                 <-> is_Some (available_files !! ts))
  /\ length (sorted_timestamps available_files) = size available_files.
Proof.
  split; [|split].
  - unfold sorted_timestamps. rewrite merge_sort_Permutation.
    apply NoDup_fst_map_to_list.
  - apply elem_of_sorted_timestamps.
  - unfold sorted_timestamps. rewrite merge_sort_Permutation.
    rewrite length_fmap. apply length_map_to_list.
Qed.

(** X21. When every key of the index is in the form the layout writes,
    the timestamps are offered in the order of their instants: an earlier
    position never holds a later instant. *)
Theorem offered_timestamps_chronological (available_files : file_index) :
  (forall k, is_Some (available_files !! k) -> timestamp_key k) ->
  StronglySorted
    (fun k1 k2 =>
       forall d1 d2, strptime k1 = Some d1 -> strptime k2 = Some d2 ->
                     datetime_cmp d1 d2 <> Gt)
    (sorted_timestamps available_files).
Proof.
  intros Hkeys.
  apply (StronglySorted_weaken String.le _ timestamp_key).
  - apply Forall_forall. intros k Hk.
    by apply Hkeys, elem_of_sorted_timestamps.
  - intros k1 k2 (d1' & Hv1 & <-) (d2' & Hv2 & <-) Hle d1 d2 Hp1 Hp2.
    rewrite strptime_strftime in Hp1, Hp2 by assumption.
    injection Hp1 as ->. injection Hp2 as ->.
    rewrite <- (compare_strftime d1 d2 Hv1 Hv2).
    unfold String.le, String.leb in Hle.
    by destruct (String.compare (strftime d1) (strftime d2)).
  - apply StronglySorted_merge_sort; apply _.
Qed.

Lemma offered_timestamps_chronological_witness :
  sorted_timestamps
    {[ "2025-09-01T23-00-00-000000" := {[ ".wav" := "c.wav" ]};
       "2025-09-01T09-59-59-999999" := {[ ".wav" := "a.wav" ]};
       "2025-09-01T10-00-00-000000" := {[ ".wav" := "b.wav" ]} ]}
  = ["2025-09-01T09-59-59-999999"; "2025-09-01T10-00-00-000000";
     "2025-09-01T23-00-00-000000"]
  /\ StronglySorted
       (fun k1 k2 =>
          forall d1 d2, strptime k1 = Some d1 -> strptime k2 = Some d2 ->
                        datetime_cmp d1 d2 <> Gt)
       (sorted_timestamps
          {[ "2025-09-01T23-00-00-000000" := {[ ".wav" := "c.wav" ]};
             "2025-09-01T09-59-59-999999" := {[ ".wav" := "a.wav" ]};
             "2025-09-01T10-00-00-000000" := {[ ".wav" := "b.wav" ]} ]}).
Proof.
  split; [vm_compute; reflexivity|].
  apply (offered_timestamps_chronological
           {[ "2025-09-01T23-00-00-000000" := {[ ".wav" := "c.wav" ]};
              "2025-09-01T09-59-59-999999" := {[ ".wav" := "a.wav" ]};
              "2025-09-01T10-00-00-000000" := {[ ".wav" := "b.wav" ]} ]}).
  intros k [v Hk].
  apply lookup_insert_Some in Hk as [[<- _]|[_ Hk]];
    [exists (mk_datetime 2025 9 1 23 0 0 0); split; vm_compute; reflexivity|].
  apply lookup_insert_Some in Hk as [[<- _]|[_ Hk]];
    [exists (mk_datetime 2025 9 1 9 59 59 999999); split;
     vm_compute; reflexivity|].
  apply lookup_singleton_Some in Hk as [<- _].
  exists (mk_datetime 2025 9 1 10 0 0 0). split; vm_compute; reflexivity.
Defined.


